(** * Squat counter of [utils.py]: angle computation and repetition state machine

    A shallow embedding of [PoseAnalyzer.calculate_angle],
    [PoseAnalyzer.detect_squat] and [PoseAnalyzer.reset_counter].

    The Python code computes on NumPy [float64] values.  The embedding is
    written once, against two interfaces: [NumPy], the arithmetic and the
    comparisons, and [MathLib], the two library functions whose float64
    results the repository does not determine ([np.arccos] and the
    one-decimal [round]).  The interfaces are interpreted twice:

    - [Binary64]: IEEE 754 binary64 (Rocq's primitive floats), the arithmetic
      the program runs on; [MathLib] stays a parameter there;
    - [Ideal]: the same operations without rounding, on real numbers
      extended with the two infinities and NaN, where trigonometric facts
      can be proved.

    Around the analyzer the file embeds [PoseAnalyzer.process_frame] and
    [VideoProcessor.recv] of [app.py] and [app_webrtc.py]; there a frame is
    its shape, and what the OpenCV, MediaPipe and decoding calls do on it
    (the landmarks they find, whether they raise) is an input. *)

From Stdlib Require Import ZArith List String Ascii Bool Lia.
From Stdlib Require Import Reals Lra.
From Stdlib Require PrimFloat Uint63.
From Stdlib Require Floats.
Import ListNotations.

Local Open Scope string_scope.
Local Open Scope Z_scope.

(** ** The arithmetic interface *)

Class NumPy (F : Type) : Type := {
  of_int : Z -> F;            (* an [int] literal used where a float is expected *)
  fadd : F -> F -> F;
  fsub : F -> F -> F;
  fmul : F -> F -> F;
  fdiv : F -> F -> F;         (* never raises: x/0 is nan or an infinity *)
  fsqrt : F -> F;
  fltb : F -> F -> bool;      (* [<], false when an operand is nan *)
  fleb : F -> F -> bool;      (* [<=], false when an operand is nan *)
  rad2deg : F                 (* 180 / pi *)
}.

Class MathLib (F : Type) : Type := {
  np_arccos : F -> F;
  round1 : F -> F             (* round(x, 1) *)
}.

Section Analyzer.

Context {F : Type} {np : NumPy F} {lib : MathLib F}.

(** *** Points and vectors ([np.array] of two coordinates) *)

Definition point : Type := (F * F)%type.

Definition vsub (p q : point) : point :=
  (fsub (fst p) (fst q), fsub (snd p) (snd q)).

Definition np_dot (u v : point) : F :=
  fadd (fmul (fst u) (fst v)) (fmul (snd u) (snd v)).

Definition np_linalg_norm (u : point) : F :=
  fsqrt (np_dot u u).

(** [np.degrees(x)] *)
Definition np_degrees (x : F) : F := fmul x rad2deg.

(** [np.clip(x, lo, hi)]: a nan goes through unchanged. *)
Definition np_clip (x lo hi : F) : F :=
  if fltb x lo then lo else if fltb hi x then hi else x.

(** *** [calculate_angle]

    On float coordinates none of the NumPy operations raises (a division by
    zero only emits a [RuntimeWarning]), so the [except] branch, which would
    return 180, is not reached and the function is the body of the [try]. *)
Definition calculate_angle (point1 point2 point3 : point) : F :=
  let a := point1 in
  let b := point2 in
  let c := point3 in
  let ba := vsub a b in
  let bc := vsub c b in
  let cosine_angle :=
    fdiv (np_dot ba bc) (fmul (np_linalg_norm ba) (np_linalg_norm bc)) in
  let cosine_angle := np_clip cosine_angle (of_int (-1)) (of_int 1) in
  let angle := np_arccos cosine_angle in
  let angle_degrees := np_degrees angle in
  angle_degrees.

(** *** The analyzer's squat-tracking fields (set by [__init__]) *)

Record State : Type := mkState {
  squat_stage : string;          (* "up" or "down" *)
  squat_count : Z;
  last_angle : F;
  feedback_message : string;
  accuracy_score : Z;
  frame_skip_counter : Z
}.

Definition init : State :=
  {| squat_stage := "up";
     squat_count := 0;
     last_angle := of_int 180;
     feedback_message := "Ready to start!";
     accuracy_score := 0;
     frame_skip_counter := 0 |}.

Definition set_squat_stage (s : State) (v : string) : State :=
  mkState v (squat_count s) (last_angle s) (feedback_message s)
          (accuracy_score s) (frame_skip_counter s).

Definition set_squat_count (s : State) (v : Z) : State :=
  mkState (squat_stage s) v (last_angle s) (feedback_message s)
          (accuracy_score s) (frame_skip_counter s).

Definition set_last_angle (s : State) (v : F) : State :=
  mkState (squat_stage s) (squat_count s) v (feedback_message s)
          (accuracy_score s) (frame_skip_counter s).

Definition set_feedback_message (s : State) (v : string) : State :=
  mkState (squat_stage s) (squat_count s) (last_angle s) v
          (accuracy_score s) (frame_skip_counter s).

Definition set_accuracy_score (s : State) (v : Z) : State :=
  mkState (squat_stage s) (squat_count s) (last_angle s) (feedback_message s)
          v (frame_skip_counter s).

(** The dictionary [detect_squat] returns. *)
Record Snapshot : Type := mkSnapshot {
  count : Z;
  stage : string;
  angle : F;
  feedback : string;
  accuracy : Z
}.

(** The feedback texts, byte for byte as they stand in the source file. *)
Definition msg_great : string := "Great squat! ðŸ’ª".
Definition msg_depth : string := "Perfect depth! Now stand up!".
Definition msg_keep : string := "Keep going down! ðŸ”½".
Definition msg_push : string := "Push up! ðŸ”¼".
Definition msg_deeper : string := "Squat deeper for better results! ðŸ“‰".
Definition msg_reposition : string := "Position yourself in camera view".

(** *** [detect_squat], lines 104-123: the stage transition *)
Definition update_stage (s : State) (avg_knee_angle : F) : State :=
  if fltb (of_int 160) avg_knee_angle then
    let s :=
      if (squat_stage s =? "down")%string then
        let s := set_squat_count s (squat_count s + 1) in
        let s := set_feedback_message s msg_great in
        set_accuracy_score s (Z.min 100 (accuracy_score s + 10))
      else s in
    set_squat_stage s "up"
  else if fltb avg_knee_angle (of_int 90) then
    let s :=
      if (squat_stage s =? "up")%string then
        let s := set_feedback_message s msg_depth in
        set_accuracy_score s (Z.min 100 (accuracy_score s + 5))
      else s in
    set_squat_stage s "down"
  else if fleb (of_int 90) avg_knee_angle && fleb avg_knee_angle (of_int 160) then
    if (squat_stage s =? "up")%string && fltb avg_knee_angle (of_int 140) then
      set_feedback_message s msg_keep
    else if (squat_stage s =? "down")%string && fltb (of_int 120) avg_knee_angle then
      set_feedback_message s msg_push
    else s
  else s.

(** *** [detect_squat], lines 125-128: the form feedback *)
Definition form_check (s : State) (avg_knee_angle : F) : State :=
  if fltb (of_int 140) avg_knee_angle && (squat_stage s =? "down")%string then
    let s := set_feedback_message s msg_deeper in
    set_accuracy_score s (Z.max 0 (accuracy_score s - 1))
  else s.

(** *** [detect_squat], lines 102-136: from the average knee angle on *)
Definition squat_step (s : State) (avg_knee_angle : F) : State * Snapshot :=
  let s := set_last_angle s avg_knee_angle in
  let s := update_stage s avg_knee_angle in
  let s := form_check s avg_knee_angle in
  (s, {| count := squat_count s;
         stage := squat_stage s;
         angle := round1 avg_knee_angle;
         feedback := feedback_message s;
         accuracy := Z.min 100 (Z.max 0 (accuracy_score s)) |}).

(** *** Landmarks

    A MediaPipe landmark, of which the code reads [.x] and [.y]; the landmark
    list is indexed with the values of MediaPipe's [PoseLandmark] enumeration,
    and an index that is not there raises. *)
Record Landmark : Type := mkLandmark { lm_x : F; lm_y : F }.

Definition LEFT_HIP : nat := 23.
Definition RIGHT_HIP : nat := 24.
Definition LEFT_KNEE : nat := 25.
Definition RIGHT_KNEE : nat := 26.
Definition LEFT_ANKLE : nat := 27.
Definition RIGHT_ANKLE : nat := 28.

Definition xy (landmarks : list Landmark) (i : nat) : option point :=
  match nth_error landmarks i with
  | Some l => Some (lm_x l, lm_y l)
  | None => None
  end.

(** Lines 79-101: the six joints, the two knee angles and their average;
    [None] when a landmark access raises. *)
Definition avg_knee_angle_of (landmarks : list Landmark) : option F :=
  match xy landmarks LEFT_HIP, xy landmarks LEFT_KNEE, xy landmarks LEFT_ANKLE,
        xy landmarks RIGHT_HIP, xy landmarks RIGHT_KNEE, xy landmarks RIGHT_ANKLE
  with
  | Some left_hip, Some left_knee, Some left_ankle,
    Some right_hip, Some right_knee, Some right_ankle =>
      let left_knee_angle := calculate_angle left_hip left_knee left_ankle in
      let right_knee_angle := calculate_angle right_hip right_knee right_ankle in
      Some (fdiv (fadd left_knee_angle right_knee_angle) (of_int 2))
  | _, _, _, _, _, _ => None
  end.

(** *** [detect_squat]: the new fields of the analyzer and the returned
    dictionary.  The [except] branch is entered from the landmark accesses
    only, before any field has been assigned. *)
Definition detect_squat (s : State) (landmarks : list Landmark)
  : State * Snapshot :=
  match avg_knee_angle_of landmarks with
  | Some avg_knee_angle => squat_step s avg_knee_angle
  | None =>
      (s, {| count := squat_count s;
             stage := squat_stage s;
             angle := of_int 180;
             feedback := msg_reposition;
             accuracy := 0 |})
  end.

(** *** [reset_counter] *)
Definition reset_counter (s : State) : State :=
  let s := set_squat_count s 0 in
  let s := set_squat_stage s "up" in
  let s := set_accuracy_score s 0 in
  set_feedback_message s "Ready to start!".

(** The bound the accuracy score is meant to keep. *)
Definition score_ok (s : State) : Prop := 0 <= accuracy_score s <= 100.

(** *** Streams of frames *)

(** The analyzer after [detect_squat] on each frame in turn, and the
    dictionaries returned, first frame first. *)
Fixpoint run (s : State) (frames : list (list Landmark))
  : State * list Snapshot :=
  match frames with
  | [] => (s, [])
  | landmarks :: rest =>
      let '(s1, d) := detect_squat s landmarks in
      let '(s2, ds) := run s1 rest in
      (s2, d :: ds)
  end.

(** The same for a stream of average knee angles. *)
Fixpoint feed (s : State) (angles : list F) : State * list Snapshot :=
  match angles with
  | [] => (s, [])
  | avg_knee_angle :: rest =>
      let '(s1, d) := squat_step s avg_knee_angle in
      let '(s2, ds) := feed s1 rest in
      (s2, d :: ds)
  end.

(** The average knee angle of the last frame whose landmarks could be read,
    [dflt] when there is none. *)
Fixpoint last_measured (dflt : F) (frames : list (list Landmark)) : F :=
  match frames with
  | [] => dflt
  | landmarks :: rest =>
      match avg_knee_angle_of landmarks with
      | Some avg_knee_angle => last_measured avg_knee_angle rest
      | None => last_measured dflt rest
      end
  end.

End Analyzer.

Arguments point F : clear implicits.
Arguments State F : clear implicits.
Arguments Snapshot F : clear implicits.
Arguments Landmark F : clear implicits.

(** ** Interpretation in IEEE 754 binary64 *)

Module Binary64.

Import PrimFloat.

Definition float_of_int (z : Z) : float :=
  if z <? 0 then opp (of_uint63 (Uint63.of_Z (- z)))
  else of_uint63 (Uint63.of_Z z).

(** 180/pi rounded to binary64, the constant [np.degrees] multiplies by. *)
Definition rad_to_deg : float := 0x1.ca5dc1a63c1f8p+5%float.

#[export] Instance ops : NumPy float := {
  of_int := float_of_int;
  fadd := add;
  fsub := sub;
  fmul := mul;
  fdiv := div;
  fsqrt := sqrt;
  fltb := ltb;
  fleb := leb;
  rad2deg := rad_to_deg
}.

End Binary64.

(** ** Interpretation without rounding *)

Module Ideal.

Local Open Scope R_scope.

Inductive xreal : Type :=
| Num (r : R)
| Inf (negative : bool)
| NaN.

Definition Rltb (x y : R) : bool := if Rlt_dec x y then true else false.
Definition Rleb (x y : R) : bool := if Rle_dec x y then true else false.
Definition Reqb (x y : R) : bool := if Req_dec_T x y then true else false.

Definition xadd (x y : xreal) : xreal :=
  match x, y with
  | NaN, _ | _, NaN => NaN
  | Num a, Num b => Num (a + b)
  | Inf s, Num _ | Num _, Inf s => Inf s
  | Inf s, Inf t => if Bool.eqb s t then Inf s else NaN
  end.

Definition xopp (x : xreal) : xreal :=
  match x with
  | Num a => Num (- a)
  | Inf s => Inf (negb s)
  | NaN => NaN
  end.

Definition xsub (x y : xreal) : xreal := xadd x (xopp y).

Definition xmul (x y : xreal) : xreal :=
  match x, y with
  | NaN, _ | _, NaN => NaN
  | Num a, Num b => Num (a * b)
  | Inf s, Num a | Num a, Inf s =>
      if Reqb a 0 then NaN else Inf (xorb s (Rltb a 0))
  | Inf s, Inf t => Inf (xorb s t)
  end.

(** Zero carries no sign here; a zero divisor is read as +0, which is what
    a norm or a product of norms is when it vanishes. *)
Definition xdiv (x y : xreal) : xreal :=
  match x, y with
  | NaN, _ | _, NaN => NaN
  | Num a, Num b =>
      if Reqb b 0
      then (if Reqb a 0 then NaN else Inf (Rltb a 0))
      else Num (a / b)
  | Num _, Inf _ => Num 0
  | Inf s, Num b => Inf (xorb s (Rltb b 0))
  | Inf _, Inf _ => NaN
  end.

Definition xsqrt (x : xreal) : xreal :=
  match x with
  | Num a => if Rltb a 0 then NaN else Num (sqrt a)
  | Inf false => Inf false
  | Inf true => NaN
  | NaN => NaN
  end.

Definition xltb (x y : xreal) : bool :=
  match x, y with
  | NaN, _ | _, NaN => false
  | Num a, Num b => Rltb a b
  | Num _, Inf s => negb s
  | Inf s, Num _ => s
  | Inf s, Inf t => s && negb t
  end.

Definition xleb (x y : xreal) : bool :=
  match x, y with
  | NaN, _ | _, NaN => false
  | Num a, Num b => Rleb a b
  | Num _, Inf s => negb s
  | Inf s, Num _ => s
  | Inf s, Inf t => s || negb t
  end.

Definition xarccos (x : xreal) : xreal :=
  match x with
  | Num a => if Rleb (-1) a && Rleb a 1 then Num (acos a) else NaN
  | _ => NaN
  end.

(** round(x, 1) without representation error: the nearest multiple of 1/10,
    a tie going to the even one. *)
Definition xround1 (x : xreal) : xreal :=
  match x with
  | Num a =>
      let y := a * 10 in
      let n := Int_part y in
      let f := frac_part y in
      let m := if Rltb f (1 / 2) then n
               else if Rltb (1 / 2) f then (n + 1)%Z
               else if Z.even n then n else (n + 1)%Z in
      Num (IZR m / 10)
  | _ => x
  end.

#[export] Instance ops : NumPy xreal := {
  of_int := fun z => Num (IZR z);
  fadd := xadd;
  fsub := xsub;
  fmul := xmul;
  fdiv := xdiv;
  fsqrt := xsqrt;
  fltb := xltb;
  fleb := xleb;
  rad2deg := Num (180 / PI)
}.

#[export] Instance lib : MathLib xreal := {
  np_arccos := xarccos;
  round1 := xround1
}.

End Ideal.

(** * The frame pipeline around the analyzer *)

(** [int(x)] on a float: truncation toward zero, raising on a nan or an
    infinity ([None]). *)
Class PyInt (F : Type) : Type := {
  py_int : F -> option Z
}.

(** What the comparisons of floats obey in both interpretations; [fleb x x]
    is false exactly for a nan. *)
Class ComparisonLaws (F : Type) {np : NumPy F} : Prop := {
  lt_le : forall x y : F, fltb x y = true -> fleb x y = true;
  le_not_gt : forall x y : F, fleb x y = true -> fltb y x = false;
  lt_trans : forall x y z : F,
      fltb x y = true -> fltb y z = true -> fltb x z = true;
  le_total : forall x y : F,
      fleb x x = true -> fleb y y = true -> fltb x y = false ->
      fleb y x = true;
  le_numbers : forall x y : F,
      fleb x y = true -> fleb x x = true /\ fleb y y = true;
  thresholds_lt :
      fltb (of_int 90) (of_int 120) = true /\
      fltb (of_int 120) (of_int 140) = true /\
      fltb (of_int 140) (of_int 160) = true
}.

Section Pipeline.

Context {F : Type} {np : NumPy F} {lib : MathLib F} {pint : PyInt F}.

(** Twice the count, plus one while the stage is "down": how far the
    analyzer has come in half repetitions. *)
Definition half_reps (s : State F) : Z :=
  2 * squat_count s + (if (squat_stage s =? "down")%string then 1 else 0).

(** The fields [detect_squat] reads: all but [last_angle] and
    [frame_skip_counter]. *)
Definition tracking (s : State F) : string * Z * string * Z :=
  (squat_stage s, squat_count s, feedback_message s, accuracy_score s).

(** *** [process_frame]

    The pixels are left out: a frame is its shape (height, width), and what
    the OpenCV and MediaPipe calls do on it is given from outside. *)
Record Vision : Type := mkVision {
  resize_raises : bool;                      (* [cv2.resize] *)
  pose_raises : bool;        (* [cv2.cvtColor] or [self.pose.process] *)
  pose_landmarks : option (list (Landmark F)); (* [results.pose_landmarks] *)
  draw_raises : bool;                        (* [draw_landmarks] *)
  text_raises : bool                         (* [cv2.putText] *)
}.

Record PoseData : Type := mkPoseData {
  landmarks_detected : bool;
  squat_data : option (Snapshot F)
}.

(** The dictionary of the [except] branch. *)
Definition no_pose_data : PoseData :=
  {| landmarks_detected := false; squat_data := None |}.

(** Lines 161-165: the shape [cv2.resize] is asked for; [None] when an
    [int] conversion raises. *)
Definition resized_shape (height width : Z) : option (Z * Z) :=
  if 640 <? width then
    let scale := fdiv (of_int 640) (of_int width) in
    match py_int (fmul (of_int width) scale),
          py_int (fmul (of_int height) scale) with
    | Some new_width, Some new_height => Some (new_height, new_width)
    | _, _ => None
    end
  else Some (height, width).

(** The analyzer after the call, the shape of the returned frame and the
    returned dictionary. *)
Definition process_frame (s : State F) (shape : Z * Z) (v : Vision)
    (activity_mode : string) : State F * (Z * Z) * PoseData :=
  let '(height, width) := shape in
  match resized_shape height width with
  | None => (s, shape, no_pose_data)
  | Some frame =>
      if (640 <? width) && resize_raises v then (s, shape, no_pose_data)
      else if pose_raises v then (s, frame, no_pose_data)
      else
        match pose_landmarks v with
        | None =>
            (s, frame, {| landmarks_detected := false; squat_data := None |})
        | Some landmark =>
            if draw_raises v then (s, frame, no_pose_data)
            else if (activity_mode =? "Squat Counter")%string then
              let '(s1, d) := detect_squat s landmark in
              if text_raises v then (s1, frame, no_pose_data)
              else
                (s1, frame,
                 {| landmarks_detected := true; squat_data := Some d |})
            else
              (s, frame, {| landmarks_detected := true; squat_data := None |})
        end
  end.

End Pipeline.

Arguments Vision F : clear implicits.
Arguments PoseData F : clear implicits.

(** *** [VideoProcessor] and the session state of [app.py] and
    [app_webrtc.py] *)

Module VideoProcessor.

Record t : Type := mk {
  activity_mode : string;
  frame_count : Z;
  skip_frames : Z
}.

(** [__init__] *)
Definition init : t :=
  {| activity_mode := "Free Pose"; frame_count := 0; skip_frames := 2 |}.

End VideoProcessor.

Module SessionState.

(** The entries of [st.session_state] that [recv] uses.  [pose_analyzer] is
    the one analyzer object, which the video processor holds as well;
    [feedback_queue] is the sequence of messages put on the queue, oldest
    first (what the speech thread has taken off is not tracked);
    [squat_data] is absent until it is first assigned. *)
Record t (F : Type) : Type := mk {
  pose_analyzer : State F;
  voice_enabled : bool;
  last_feedback : string;
  feedback_queue : list string;
  frame_count : Z;
  pose_detected : bool;
  squat_data : option (Snapshot F)
}.

Arguments mk {F}.
Arguments pose_analyzer {F}.
Arguments voice_enabled {F}.
Arguments last_feedback {F}.
Arguments feedback_queue {F}.
Arguments frame_count {F}.
Arguments pose_detected {F}.
Arguments squat_data {F}.

End SessionState.

Section Recv.

Context {F : Type} {np : NumPy F} {lib : MathLib F} {pint : PyInt F}.

(** [initialize_state] on an empty session. *)
Definition initialize_state : SessionState.t F :=
  {| SessionState.pose_analyzer := init;
     SessionState.voice_enabled := false;
     SessionState.last_feedback := "";
     SessionState.feedback_queue := [];
     SessionState.frame_count := 0;
     SessionState.pose_detected := false;
     SessionState.squat_data := None |}.

(** One incoming video frame: whether [frame.to_ndarray] raises, the shape
    of the image, and what the vision calls do on it. *)
Record Incoming : Type := mkIncoming {
  decode_raises : bool;
  shape : Z * Z;
  vision : Vision F
}.

(** Lines 62-79 of [recv]: the session state after a processed frame. *)
Definition publish (frame_count : Z) (ss : SessionState.t F)
    (pose_data : PoseData F) : SessionState.t F :=
  if landmarks_detected pose_data then
    let ss :=
      SessionState.mk (SessionState.pose_analyzer ss)
        (SessionState.voice_enabled ss) (SessionState.last_feedback ss)
        (SessionState.feedback_queue ss) (SessionState.frame_count ss + 1)
        true (SessionState.squat_data ss) in
    match squat_data pose_data with
    | Some d =>
        let speak :=
          SessionState.voice_enabled ss
          && negb (feedback d =? SessionState.last_feedback ss)%string
          && (frame_count mod 30 =? 0) in
        SessionState.mk (SessionState.pose_analyzer ss)
          (SessionState.voice_enabled ss)
          (if speak then feedback d else SessionState.last_feedback ss)
          (if speak then SessionState.feedback_queue ss ++ [feedback d]
           else SessionState.feedback_queue ss)
          (SessionState.frame_count ss) (SessionState.pose_detected ss)
          (Some d)
    | None => ss
    end
  else
    SessionState.mk (SessionState.pose_analyzer ss)
      (SessionState.voice_enabled ss) (SessionState.last_feedback ss)
      (SessionState.feedback_queue ss) (SessionState.frame_count ss)
      false (SessionState.squat_data ss).

(** [VideoProcessor.recv]: the processor and the session state after one
    frame.  A modulus by zero raises and is caught like any other exception;
    the queue is unbounded, so [put_nowait] does not raise. *)
Definition recv (vp : VideoProcessor.t) (ss : SessionState.t F)
    (frame : Incoming) : VideoProcessor.t * SessionState.t F :=
  if decode_raises frame then (vp, ss)
  else
    let vp :=
      VideoProcessor.mk (VideoProcessor.activity_mode vp)
        (VideoProcessor.frame_count vp + 1) (VideoProcessor.skip_frames vp) in
    if VideoProcessor.skip_frames vp =? 0 then (vp, ss)
    else if negb (VideoProcessor.frame_count vp mod
                  VideoProcessor.skip_frames vp =? 0) then (vp, ss)
    else
      let '(s1, _, pose_data) :=
        process_frame (SessionState.pose_analyzer ss) (shape frame)
          (vision frame) (VideoProcessor.activity_mode vp) in
      let ss :=
        SessionState.mk s1
          (SessionState.voice_enabled ss) (SessionState.last_feedback ss)
          (SessionState.feedback_queue ss) (SessionState.frame_count ss)
          (SessionState.pose_detected ss) (SessionState.squat_data ss) in
      (vp, publish (VideoProcessor.frame_count vp) ss pose_data).

(** A stream of frames through [recv]. *)
Fixpoint recv_all (vp : VideoProcessor.t) (ss : SessionState.t F)
    (frames : list Incoming) : VideoProcessor.t * SessionState.t F :=
  match frames with
  | [] => (vp, ss)
  | frame :: rest =>
      let '(vp1, ss1) := recv vp ss frame in
      recv_all vp1 ss1 rest
  end.

(** No two neighbours equal. *)
Fixpoint no_repeat (l : list string) : Prop :=
  match l with
  | a :: (b :: _) as rest => a <> b /\ no_repeat rest
  | _ => True
  end.

End Recv.

Arguments Incoming F : clear implicits.

(** *** The two interpretations of [int] *)

Module Binary64Frames.

Import SpecFloat.

(** [int(x)] from the sign, mantissa and exponent of [x]. *)
Definition int_of_float (x : PrimFloat.float) : option Z :=
  match FloatOps.Prim2SF x with
  | S754_zero _ => Some 0
  | S754_finite s m e =>
      let a := if 0 <=? e then Z.shiftl (Zpos m) e
               else Z.shiftr (Zpos m) (- e) in
      Some (if s then - a else a)
  | S754_infinity _ => None
  | S754_nan => None
  end.

#[export] Instance pint : PyInt PrimFloat.float := {
  py_int := int_of_float
}.




(** The widths above 640 up to 8192. *)
Definition wide_frames : list Z :=
  map (fun k => 641 + Z.of_nat k) (seq 0 (Z.to_nat 7552)).

End Binary64Frames.

Module IdealFrames.

Import Ideal.

Definition xtrunc (x : xreal) : option Z :=
  match x with
  | Num a => Some (if Rltb a 0 then (- Int_part (- a))%Z else Int_part a)
  | _ => None
  end.

#[export] Instance pint : PyInt xreal := {
  py_int := xtrunc
}.

End IdealFrames.

(** * The cosine handed to [np.arccos] *)

Section Cosine.

Context {F : Type} {np : NumPy F}.

(** [calculate_angle], lines 45-57: the clamped cosine. *)
Definition cosine_angle (point1 point2 point3 : point F) : F :=
  let a := point1 in
  let b := point2 in
  let c := point3 in
  let ba := vsub a b in
  let bc := vsub c b in
  let cosine_angle :=
    fdiv (np_dot ba bc) (fmul (np_linalg_norm ba) (np_linalg_norm bc)) in
  np_clip cosine_angle (of_int (-1)) (of_int 1).

End Cosine.

Module Binary64Angles.

Import PrimFloat Binary64.



Definition lattice_point (x y : Z) : point PrimFloat.float :=
  (float_of_int x, float_of_int y).





End Binary64Angles.

Module IdealPose.

Import Ideal.
Local Open Scope R_scope.

Definition joint (x y : R) : Landmark xreal := mkLandmark (Num x) (Num y).

(** A full pose of 33 landmarks, standing: hips at height 1/2, knees at
    7/10 and ankles at 9/10, each leg vertical. *)
Definition standing_pose : list (Landmark xreal) :=
  repeat (joint (1 / 2) (1 / 5)) 23
  ++ [joint (45 / 100) (1 / 2); joint (55 / 100) (1 / 2);
      joint (45 / 100) (7 / 10); joint (55 / 100) (7 / 10);
      joint (45 / 100) (9 / 10); joint (55 / 100) (9 / 10)]
  ++ repeat (joint (1 / 2) (19 / 20)) 4.

(** A 640 by 480 frame showing that pose, one whose text overlay raises,
    and one showing nobody. *)
Definition standing_frame : Incoming xreal :=
  mkIncoming false (480, 640)%Z
    (mkVision false false (Some standing_pose) false false).

Definition standing_vision_no_text : Vision xreal :=
  mkVision false false (Some standing_pose) false true.

Definition empty_frame : Incoming xreal :=
  mkIncoming false (480, 640)%Z (mkVision false false None false false).

End IdealPose.

(** * Properties *)

(** ** Properties that hold whatever the arithmetic is *)

Section StateMachine.

Context {F : Type} {np : NumPy F} {lib : MathLib F}.

Implicit Types (s : State F) (avg : F) (landmarks : list (Landmark F)).

Lemma detect_squat_measured s landmarks avg :
  avg_knee_angle_of landmarks = Some avg ->
  detect_squat s landmarks = squat_step s avg.
Proof. intros E. unfold detect_squat. now rewrite E. Qed.

Lemma avg_knee_angle_of_missing landmarks i :
  In i [LEFT_HIP; LEFT_KNEE; LEFT_ANKLE; RIGHT_HIP; RIGHT_KNEE; RIGHT_ANKLE] ->
  nth_error landmarks i = None ->
  avg_knee_angle_of landmarks = None.
Proof.
  intros Hin Hnone. unfold avg_knee_angle_of, xy.
  simpl in Hin.
  repeat (destruct Hin as [<- | Hin]; [ rewrite Hnone;
    repeat (match goal with |- context [nth_error landmarks ?j] =>
              destruct (nth_error landmarks j) end); reflexivity | ]).
  contradiction.
Qed.

(** The form feedback touches neither the stage nor the count. *)
Lemma form_check_stage s avg :
  squat_stage (form_check s avg) = squat_stage s.
Proof. unfold form_check. now destruct (_ && _). Qed.

Lemma form_check_count s avg :
  squat_count (form_check s avg) = squat_count s.
Proof. unfold form_check. now destruct (_ && _). Qed.

Lemma form_check_last_angle s avg :
  last_angle (form_check s avg) = last_angle s.
Proof. unfold form_check. now destruct (_ && _). Qed.

Lemma update_stage_last_angle s avg :
  last_angle (update_stage s avg) = last_angle s.
Proof.
  unfold update_stage.
  repeat match goal with
         | |- context [if ?b then _ else _] => destruct b; cbn
         end; reflexivity.
Qed.

(** *** The accuracy score stays between 0 and 100 *)

Lemma update_stage_score_ok s avg :
  score_ok s -> score_ok (update_stage s avg).
Proof.
  unfold score_ok, update_stage. intros Hs.
  repeat match goal with
         | |- context [if ?b then _ else _] => destruct b; cbn
         end; lia.
Qed.

Lemma form_check_score_ok s avg :
  score_ok s -> score_ok (form_check s avg).
Proof.
  unfold score_ok, form_check. intros Hs.
  destruct (_ && _); cbn; lia.
Qed.

Lemma detect_squat_score_ok s landmarks :
  score_ok s -> score_ok (fst (detect_squat s landmarks)).
Proof.
  intros Hs. unfold detect_squat.
  destruct (avg_knee_angle_of landmarks) as [avg|]; cbn; [|exact Hs].
  apply form_check_score_ok, update_stage_score_ok. exact Hs.
Qed.

Lemma detect_squat_accuracy s landmarks :
  0 <= accuracy (snd (detect_squat s landmarks)) <= 100.
Proof.
  unfold detect_squat.
  destruct (avg_knee_angle_of landmarks) as [avg|]; cbn; lia.
Qed.

Lemma run_cons s landmarks rest :
  run s (landmarks :: rest) =
  (fst (run (fst (detect_squat s landmarks)) rest),
   snd (detect_squat s landmarks) :: snd (run (fst (detect_squat s landmarks)) rest)).
Proof.
  cbn [run]. destruct (detect_squat s landmarks) as [s1 d]. cbn [fst snd].
  now destruct (run s1 rest).
Qed.

(** Frames whose landmarks can all be read act as the stream of their
    average knee angles. *)
Lemma run_measured frames : forall angles s,
  map avg_knee_angle_of frames = map Some angles ->
  run s frames = feed s angles.
Proof.
  induction frames as [|landmarks rest IH]; intros [|avg angles] s E;
    try discriminate; [reflexivity|].
  cbn [map] in E. injection E as E1 E2.
  cbn [run feed]. rewrite (detect_squat_measured s landmarks avg E1).
  destruct (squat_step s avg) as [s1 d]. now rewrite (IH angles s1 E2).
Qed.

Lemma run_score_ok frames : forall s,
  score_ok s ->
  score_ok (fst (run s frames)) /\
  Forall (fun d => 0 <= accuracy d <= 100) (snd (run s frames)).
Proof.
  induction frames as [|landmarks rest IH]; intros s Hs.
  - split; [exact Hs | constructor].
  - rewrite run_cons. cbn [fst snd].
    destruct (IH _ (detect_squat_score_ok s landmarks Hs)) as [IH1 IH2].
    split; [exact IH1|]. constructor; [apply detect_squat_accuracy | exact IH2].
Qed.

Lemma run_last_angle frames : forall s,
  last_angle (fst (run s frames)) = last_measured (last_angle s) frames.
Proof.
  induction frames as [|landmarks rest IH]; intros s; [reflexivity|].
  rewrite run_cons. cbn [fst last_measured]. rewrite IH.
  unfold detect_squat.
  destruct (avg_knee_angle_of landmarks) as [avg|]; [|reflexivity].
  cbn [fst squat_step]. now rewrite form_check_last_angle, update_stage_last_angle.
Qed.

(** *** The claims on single updates *)

(** C3: an update with an average angle strictly above 160 from stage "down"
    adds one to the count, sets the feedback to the completion message, adds
    10 to the accuracy score with a cap at 100 and sets the stage to "up";
    from stage "up" it leaves count and accuracy score alone and the stage
    stays "up". *)
Theorem standing_completes_rep s avg :
  fltb (of_int 160) avg = true ->
  let s' := fst (squat_step s avg) in
  (squat_stage s = "down" ->
     squat_count s' = squat_count s + 1 /\
     feedback_message s' = msg_great /\
     accuracy_score s' = Z.min 100 (accuracy_score s + 10) /\
     squat_stage s' = "up") /\
  (squat_stage s = "up" ->
     squat_count s' = squat_count s /\
     accuracy_score s' = accuracy_score s /\
     squat_stage s' = "up").
Proof.
  intros Hup s'. subst s'. unfold squat_step. cbn [fst].
  unfold form_check, update_stage. cbn [squat_stage set_last_angle].
  rewrite Hup.
  split; intros Hst; rewrite Hst; cbn; rewrite andb_false_r; cbn; auto.
Qed.

(** C5: after the stage transition, an average angle strictly above 140 with
    the stage at "down" overwrites the feedback with the squat-deeper message
    and takes 1 from the accuracy score, not going below 0; the check never
    changes the stage or the count. *)
Theorem shallow_squat_penalty s avg :
  let s1 := update_stage (set_last_angle s avg) avg in
  let s2 := fst (squat_step s avg) in
  squat_stage s2 = squat_stage s1 /\
  squat_count s2 = squat_count s1 /\
  (fltb (of_int 140) avg = true -> squat_stage s1 = "down" ->
     feedback_message s2 = msg_deeper /\
     accuracy_score s2 = Z.max 0 (accuracy_score s1 - 1)).
Proof.
  intros s1 s2. subst s2. unfold squat_step. cbn [fst]. fold s1.
  split; [apply form_check_stage|]. split; [apply form_check_count|].
  intros Hgt Hst. unfold form_check. rewrite Hgt, Hst. cbn. auto.
Qed.

(** C6: when a landmark the squat analysis needs cannot be read,
    [detect_squat] returns the current count and stage with the
    reposition message, angle 180 and accuracy 0, and the analyzer's fields
    are what they were. *)
Theorem missing_landmark_fallback s landmarks i :
  In i [LEFT_HIP; LEFT_KNEE; LEFT_ANKLE; RIGHT_HIP; RIGHT_KNEE; RIGHT_ANKLE] ->
  nth_error landmarks i = None ->
  detect_squat s landmarks =
    (s, {| count := squat_count s;
           stage := squat_stage s;
           angle := of_int 180;
           feedback := "Position yourself in camera view";
           accuracy := 0 |}).
Proof.
  intros Hin Hnone. unfold detect_squat.
  now rewrite (avg_knee_angle_of_missing landmarks i Hin Hnone).
Qed.

(** C7: over any stream of frames from the initial state, every returned
    accuracy lies in [0, 100], and so does the stored accuracy score after
    every frame. *)
Theorem accuracy_within_bounds (frames : list (list (Landmark F))) :
  Forall (fun d => 0 <= accuracy d <= 100) (snd (run init frames)) /\
  (forall n, score_ok (fst (run init (firstn n frames)))).
Proof.
  assert (Hinit : score_ok init) by (unfold score_ok; cbn; lia).
  split.
  - apply (run_score_ok frames init Hinit).
  - intros n. apply (run_score_ok (firstn n frames) init Hinit).
Qed.

(** C8: [reset_counter] yields count 0, stage "up", accuracy score 0 and
    feedback "Ready to start!" from every state, and resetting again changes
    nothing. *)
Theorem reset_counter_result s :
  let r := reset_counter s in
  squat_count r = 0 /\
  squat_stage r = "up" /\
  accuracy_score r = 0 /\
  feedback_message r = "Ready to start!" /\
  reset_counter r = r.
Proof. cbn. repeat split. Qed.

(** C10: [reset_counter] leaves [last_angle] alone; after a stream of frames
    from the initial state and a reset it is the average knee angle of the
    last frame that was measured, 180 when there is none. *)
Theorem reset_counter_keeps_last_angle :
  (forall s, last_angle (reset_counter s) = last_angle s) /\
  (forall frames : list (list (Landmark F)),
     last_angle (reset_counter (fst (run init frames))) =
     last_measured (of_int 180) frames).
Proof.
  split; [reflexivity|].
  intros frames. cbn [reset_counter last_angle set_feedback_message
    set_accuracy_score set_squat_stage set_squat_count].
  now rewrite run_last_angle.
Qed.

End StateMachine.

(** ** Runs in binary64 *)

Section Binary64Runs.

Import PrimFloat Binary64.

Context {lib : MathLib float}.

(** C2: from the initial state the average angles 170, 150, 100, 80, 100,
    150, 170 leave the count at exactly 1. *)
Theorem single_rep_counted_once :
  squat_count
    (fst (feed init [170; 150; 100; 80; 100; 150; 170]%float)) = 1.
Proof. vm_compute. reflexivity. Qed.

Lemma update_stage_160 (t : State float) :
  update_stage t 160%float =
    if (squat_stage t =? "down")%string
    then set_feedback_message t msg_push else t.
Proof.
  unfold update_stage.
  change (fltb (of_int 160) 160%float) with false.
  change (fltb 160%float (of_int 90)) with false.
  change (fleb (of_int 90) 160%float) with true.
  change (fleb 160%float (of_int 160)) with true.
  change (fltb 160%float (of_int 140)) with false.
  change (fltb (of_int 120) 160%float) with true.
  cbn [andb]. now rewrite andb_false_r, andb_true_r.
Qed.

Lemma update_stage_90 (t : State float) :
  update_stage t 90%float =
    if (squat_stage t =? "up")%string
    then set_feedback_message t msg_keep else t.
Proof.
  unfold update_stage.
  change (fltb (of_int 160) 90%float) with false.
  change (fltb 90%float (of_int 90)) with false.
  change (fleb (of_int 90) 90%float) with true.
  change (fleb 90%float (of_int 160)) with true.
  change (fltb 90%float (of_int 140)) with true.
  change (fltb (of_int 120) 90%float) with false.
  cbn [andb]. rewrite andb_false_r, andb_true_r.
  now destruct (squat_stage t =? "up")%string.
Qed.

(** C4: an average angle of exactly 160.0 is handled by the transition
    branch, not by the standing branch, so count and stage stay as they are
    whatever the stage was; likewise exactly 90.0 is handled by the
    transition branch, not by the deep-squat branch. *)
Theorem boundary_angles_in_transition_zone (s : State float) :
  (update_stage s 160%float =
     if (squat_stage s =? "down")%string
     then set_feedback_message s msg_push else s) /\
  (squat_count (fst (squat_step s 160%float)) = squat_count s /\
   squat_stage (fst (squat_step s 160%float)) = squat_stage s) /\
  (update_stage s 90%float =
     if (squat_stage s =? "up")%string
     then set_feedback_message s msg_keep else s) /\
  (squat_count (fst (squat_step s 90%float)) = squat_count s /\
   squat_stage (fst (squat_step s 90%float)) = squat_stage s).
Proof.
  split; [apply update_stage_160|].
  split.
  { unfold squat_step. cbn [fst].
    rewrite form_check_count, form_check_stage, update_stage_160.
    cbn [squat_stage set_last_angle].
    now destruct (squat_stage s =? "down")%string. }
  split; [apply update_stage_90|].
  unfold squat_step. cbn [fst].
  rewrite form_check_count, form_check_stage, update_stage_90.
  cbn [squat_stage set_last_angle].
  now destruct (squat_stage s =? "up")%string.
Qed.

(** Illustrations for the accuracy bounds: seven clean repetitions reach the
    cap, and loitering at 150 degrees in stage "down" wears the score down
    to the floor. *)
Example clean_reps_cap_accuracy :
  accuracy_score
    (fst (feed init [80; 170; 80; 170; 80; 170; 80; 170; 80; 170;
                     80; 170; 80; 170; 80; 170]%float)) = 100.
Proof. vm_compute. reflexivity. Qed.

Example shallow_loitering_floors_accuracy :
  accuracy_score
    (fst (feed init [80; 150; 150; 150; 150; 150; 150; 150]%float)) = 0.
Proof. vm_compute. reflexivity. Qed.

(** A joint that coincides with the knee: the cosine handed to [arccos] is
    0/0, a nan, in binary64 as well. *)
Example coincident_joint_binary64 :
  calculate_angle (0.5, 0.5)%float (0.5, 0.5)%float (0.5, 0.75)%float =
  np_degrees (np_arccos nan).
Proof. vm_compute. reflexivity. Qed.

End Binary64Runs.

(** ** The angle without rounding *)

Section IdealAngle.

Import Ideal.
Local Open Scope R_scope.

Lemma Rltb_true x y : x < y -> Rltb x y = true.
Proof. intros. unfold Rltb. now destruct (Rlt_dec x y). Qed.

Lemma Rltb_false x y : y <= x -> Rltb x y = false.
Proof. intros. unfold Rltb. destruct (Rlt_dec x y); [lra | reflexivity]. Qed.

Lemma Rleb_true x y : x <= y -> Rleb x y = true.
Proof. intros. unfold Rleb. now destruct (Rle_dec x y). Qed.

Lemma Rleb_false x y : y < x -> Rleb x y = false.
Proof. intros. unfold Rleb. destruct (Rle_dec x y); [lra | reflexivity]. Qed.

Lemma Reqb_true x y : x = y -> Reqb x y = true.
Proof. intros. unfold Reqb. now destruct (Req_dec_T x y). Qed.

Lemma Reqb_false x y : x <> y -> Reqb x y = false.
Proof. intros. unfold Reqb. now destruct (Req_dec_T x y). Qed.

(** *** Degenerate inputs: a vector of length zero *)

Lemma xsub_self x : xsub x x = Num 0 \/ xsub x x = NaN.
Proof.
  destruct x as [r|[]|]; cbn; auto.
  left. f_equal. ring.
Qed.

Lemma xmul_zero_l x y :
  x = Num 0 \/ x = NaN -> xmul x y = Num 0 \/ xmul x y = NaN.
Proof.
  intros [-> | ->]; [|now right].
  destruct y as [r|b|]; cbn; auto.
  - left. f_equal. ring.
  - rewrite Reqb_true by reflexivity. now right.
Qed.

Lemma xmul_zero_r x y :
  y = Num 0 \/ y = NaN -> xmul x y = Num 0 \/ xmul x y = NaN.
Proof.
  intros [-> | ->]; [|destruct x; now right].
  destruct x as [r|b|]; cbn; auto.
  - left. f_equal. ring.
  - rewrite Reqb_true by reflexivity. now right.
Qed.

Lemma xadd_zero x y :
  x = Num 0 \/ x = NaN -> y = Num 0 \/ y = NaN ->
  xadd x y = Num 0 \/ xadd x y = NaN.
Proof.
  intros [-> | ->] [-> | ->]; cbn; auto.
  left. f_equal. ring.
Qed.

Lemma xsqrt_zero x :
  x = Num 0 \/ x = NaN -> xsqrt x = Num 0 \/ xsqrt x = NaN.
Proof.
  intros [-> | ->]; cbn; auto.
  rewrite Rltb_false by lra. left. f_equal. apply sqrt_0.
Qed.

Lemma xdiv_zero_zero x y :
  x = Num 0 \/ x = NaN -> y = Num 0 \/ y = NaN -> xdiv x y = NaN.
Proof.
  intros [-> | ->] [-> | ->]; cbn; auto.
  now rewrite !Reqb_true by reflexivity.
Qed.

Lemma angle_of_nan_cosine :
  np_degrees (np_arccos (np_clip NaN (of_int (-1)) (of_int 1))) = NaN.
Proof. reflexivity. Qed.

Lemma np_dot_zero_l (u v : point xreal) :
  (fst u = Num 0 \/ fst u = NaN) -> (snd u = Num 0 \/ snd u = NaN) ->
  np_dot u v = Num 0 \/ np_dot u v = NaN.
Proof.
  intros H1 H2. unfold np_dot. cbn [fadd fmul ops].
  apply xadd_zero; now apply xmul_zero_l.
Qed.

Lemma np_dot_zero_r (u v : point xreal) :
  (fst v = Num 0 \/ fst v = NaN) -> (snd v = Num 0 \/ snd v = NaN) ->
  np_dot u v = Num 0 \/ np_dot u v = NaN.
Proof.
  intros H1 H2. unfold np_dot. cbn [fadd fmul ops].
  apply xadd_zero; now apply xmul_zero_r.
Qed.

(** C1, as the code behaves: when the first or the third point equals the
    vertex, [calculate_angle] returns nan, not 180. *)
Theorem degenerate_angle_is_nan (p q : point xreal) :
  (calculate_angle p p q = NaN /\ calculate_angle q p p = NaN) /\
  (calculate_angle p p q <> of_int 180 /\ calculate_angle q p p <> of_int 180).
Proof.
  cut (calculate_angle p p q = NaN /\ calculate_angle q p p = NaN).
  { intros [-> ->]. repeat split; discriminate. }
  assert (Z1 := xsub_self (fst p)). assert (Z2 := xsub_self (snd p)).
  split; unfold calculate_angle.
  - replace (fdiv _ _) with NaN; [apply angle_of_nan_cosine|].
    symmetry. cbn [fdiv ops]. apply xdiv_zero_zero.
    + apply np_dot_zero_l; assumption.
    + cbn [fmul ops]. apply xmul_zero_l. unfold np_linalg_norm.
      cbn [fsqrt ops]. apply xsqrt_zero. apply np_dot_zero_l; assumption.
  - replace (fdiv _ _) with NaN; [apply angle_of_nan_cosine|].
    symmetry. cbn [fdiv ops]. apply xdiv_zero_zero.
    + apply np_dot_zero_r; assumption.
    + cbn [fmul ops]. apply xmul_zero_r. unfold np_linalg_norm.
      cbn [fsqrt ops]. apply xsqrt_zero. apply np_dot_zero_l; assumption.
Qed.

(** *** Proper inputs: both vectors of positive length *)

Lemma sum_sqr_nonneg u v : 0 <= u * u + v * v.
Proof. nra. Qed.

Lemma sum_sqr_pos u v : (u, v) <> (0, 0) -> 0 < u * u + v * v.
Proof.
  intros Hne.
  destruct (Req_dec u 0) as [-> | Hu].
  - destruct (Req_dec v 0) as [-> | Hv]; [now elim Hne | nra].
  - nra.
Qed.

Lemma calculate_angle_finite ax ay bx by_ cx cy d n :
  d = (ax - bx) * (cx - bx) + (ay - by_) * (cy - by_) ->
  n = sqrt ((ax - bx) * (ax - bx) + (ay - by_) * (ay - by_)) *
      sqrt ((cx - bx) * (cx - bx) + (cy - by_) * (cy - by_)) ->
  n <> 0 ->
  calculate_angle (Num ax, Num ay) (Num bx, Num by_) (Num cx, Num cy) =
  Num (acos (Rmax (-1) (Rmin 1 (d / n))) * (180 / PI)).
Proof.
  intros Hd Hn Hn0.
  unfold calculate_angle, np_linalg_norm, np_dot, vsub.
  cbn [fst snd fsub fadd fmul fdiv fsqrt of_int ops xsub xadd xopp xmul xsqrt].
  fold (ax - bx) (ay - by_) (cx - bx) (cy - by_).
  rewrite !Rltb_false by apply sum_sqr_nonneg.
  cbn [xmul xdiv]. rewrite <- Hd, <- Hn. rewrite Reqb_false by assumption.
  unfold np_clip. cbn [fltb ops xltb].
  destruct (Rlt_dec (d / n) (-1)) as [Hlo | Hlo].
  - rewrite Rltb_true by assumption.
    rewrite Rmin_right, Rmax_left by lra.
    cbn. rewrite !Rleb_true by lra. reflexivity.
  - rewrite Rltb_false by lra.
    destruct (Rlt_dec 1 (d / n)) as [Hhi | Hhi].
    + rewrite Rltb_true by assumption.
      rewrite Rmin_left, Rmax_right by lra.
      cbn. rewrite !Rleb_true by lra. reflexivity.
    + rewrite Rltb_false by lra.
      rewrite Rmin_right, Rmax_right by (try rewrite Rmin_right; lra).
      cbn. rewrite !Rleb_true by lra. reflexivity.
Qed.

Lemma diff_nonzero ax ay bx by_ :
  (ax, ay) <> (bx, by_) -> (ax - bx, ay - by_) <> (0, 0).
Proof.
  intros Hne E. apply Hne. injection E as E1 E2. f_equal; lra.
Qed.

Lemma norm_product_pos u1 v1 u2 v2 :
  (u1, v1) <> (0, 0) -> (u2, v2) <> (0, 0) ->
  0 < sqrt (u1 * u1 + v1 * v1) * sqrt (u2 * u2 + v2 * v2).
Proof.
  intros H1 H2. apply Rmult_lt_0_compat; apply sqrt_lt_R0;
    now apply sum_sqr_pos.
Qed.

Lemma degrees_of_PI : PI * (180 / PI) = 180.
Proof. field. apply PI_neq0. Qed.

Lemma sqrt_scaled k m : 0 <= k -> 0 <= m -> sqrt (k * k * m) = k * sqrt m.
Proof.
  intros Hk Hm. rewrite sqrt_mult by nra. now rewrite sqrt_square.
Qed.

Lemma right_angle_is_90 :
  calculate_angle (Num 1, Num 0) (Num 0, Num 0) (Num 0, Num 1) = Num 90.
Proof.
  rewrite (calculate_angle_finite 1 0 0 0 0 1 0 1).
  - replace (0 / 1) with 0 by field.
    rewrite Rmin_right, Rmax_right by lra.
    rewrite acos_0. f_equal. field. apply PI_neq0.
  - ring.
  - replace ((1 - 0) * (1 - 0) + (0 - 0) * (0 - 0)) with 1 by ring.
    replace ((0 - 0) * (0 - 0) + (1 - 0) * (1 - 0)) with 1 by ring.
    rewrite sqrt_1. ring.
  - lra.
Qed.

Lemma straight_angle_is_180 ax ay cx cy t :
  (ax, ay) <> (cx, cy) -> 0 < t < 1 ->
  calculate_angle (Num ax, Num ay)
    (Num (ax + t * (cx - ax)), Num (ay + t * (cy - ay)))
    (Num cx, Num cy) = Num 180.
Proof.
  intros Hne Ht.
  set (u := cx - ax). set (v := cy - ay).
  assert (HL : 0 < u * u + v * v).
  { apply sum_sqr_pos. apply diff_nonzero. congruence. }
  set (L := u * u + v * v) in HL.
  assert (HsL : sqrt L * sqrt L = L) by (apply sqrt_sqrt; lra).
  rewrite (calculate_angle_finite _ _ _ _ _ _
             (- (t * (1 - t) * L)) (t * (1 - t) * L)).
  - replace (- (t * (1 - t) * L) / (t * (1 - t) * L)) with (-1)
      by (field; nra).
    rewrite Rmin_right, Rmax_left by lra.
    replace (acos (-1)) with PI
      by (replace (-1) with (Ropp 1) by lra;
          now rewrite acos_opp, acos_1, Rminus_0_r).
    f_equal. apply degrees_of_PI.
  - unfold L, u, v. ring.
  - replace ((ax - (ax + t * u)) * (ax - (ax + t * u)) +
             (ay - (ay + t * v)) * (ay - (ay + t * v)))
      with (t * t * L) by (unfold L; ring).
    replace ((cx - (ax + t * u)) * (cx - (ax + t * u)) +
             (cy - (ay + t * v)) * (cy - (ay + t * v)))
      with ((1 - t) * (1 - t) * L) by (unfold L, u, v; ring).
    rewrite !sqrt_scaled by lra.
    transitivity (t * (1 - t) * (sqrt L * sqrt L)); [now rewrite HsL | ring].
  - apply Rgt_not_eq, Rlt_gt.
    apply Rmult_lt_0_compat; [apply Rmult_lt_0_compat|]; lra.
Qed.

(** Without rounding: the right-angle configuration gives 90; three distinct
    collinear points with the vertex strictly between the other two give
    180; and for both vectors of positive length the result is the arccosine
    of the cosine (ba.bc)/(|ba||bc|) clamped to [-1, 1], in degrees, between
    0 and 180. *)
Theorem law_of_cosines_angle :
  calculate_angle (Num 1, Num 0) (Num 0, Num 0) (Num 0, Num 1) = Num 90 /\
  (forall ax ay cx cy t,
     (ax, ay) <> (cx, cy) -> 0 < t < 1 ->
     calculate_angle (Num ax, Num ay)
       (Num (ax + t * (cx - ax)), Num (ay + t * (cy - ay)))
       (Num cx, Num cy) = Num 180) /\
  (forall ax ay bx by_ cx cy,
     (ax, ay) <> (bx, by_) -> (cx, cy) <> (bx, by_) ->
     let d := (ax - bx) * (cx - bx) + (ay - by_) * (cy - by_) in
     let n := sqrt ((ax - bx) * (ax - bx) + (ay - by_) * (ay - by_)) *
              sqrt ((cx - bx) * (cx - bx) + (cy - by_) * (cy - by_)) in
     let theta := acos (Rmax (-1) (Rmin 1 (d / n))) * (180 / PI) in
     calculate_angle (Num ax, Num ay) (Num bx, Num by_) (Num cx, Num cy)
       = Num theta /\
     0 <= theta <= 180).
Proof.
  split; [exact right_angle_is_90|].
  split; [exact straight_angle_is_180|].
  intros ax ay bx by_ cx cy Ha Hc d n theta.
  assert (Hn : 0 < n).
  { apply norm_product_pos; now apply diff_nonzero. }
  split.
  - apply (calculate_angle_finite ax ay bx by_ cx cy d n); try reflexivity.
    lra.
  - assert (Hclamp : -1 <= Rmax (-1) (Rmin 1 (d / n)) <= 1).
    { split; [apply Rmax_l|]. apply Rmax_lub; [lra | apply Rmin_l]. }
    destruct (acos_bound (Rmax (-1) (Rmin 1 (d / n)))) as [Hlo Hhi].
    assert (Hk : 0 < 180 / PI).
    { apply Rdiv_lt_0_compat; [lra | apply PI_RGT_0]. }
    subst theta. split.
    + apply Rmult_le_pos; lra.
    + apply Rle_trans with (PI * (180 / PI));
        [apply Rmult_le_compat_r; lra | rewrite degrees_of_PI; lra].
Qed.

End IdealAngle.

(** ** The conditional statements at concrete inputs *)

Section Instances.

Import Ideal.
Local Open Scope R_scope.

Ltac compare_reals :=
  cbn [fltb fleb of_int ops xltb xleb];
  repeat first
    [ rewrite Rltb_true by lra | rewrite Rltb_false by lra
    | rewrite Rleb_true by lra | rewrite Rleb_false by lra ].

(** Rising to 170 degrees from stage "down" with two repetitions counted and
    an accuracy score of 95. *)
Lemma standing_completes_rep_witness :
  let s := mkState "down" 2 (Num 80) msg_depth 95 0 in
  let s' := fst (squat_step s (Num 170)) in
  fltb (of_int 160) (Num 170) = true /\
  squat_count s' = 3%Z /\
  feedback_message s' = msg_great /\
  accuracy_score s' = 100%Z /\
  squat_stage s' = "up".
Proof.
  intros s s'.
  assert (Hup : fltb (of_int 160) (Num 170) = true) by (compare_reals; reflexivity).
  split; [exact Hup|].
  destruct (standing_completes_rep s (Num 170) Hup) as [Hdown _].
  destruct (Hdown eq_refl) as (Hc & Hf & Ha & Hs).
  fold s' in Hc, Hf, Ha, Hs.
  rewrite Hc, Hf, Ha, Hs. repeat split.
Defined.

(** Loitering at 150 degrees in stage "down". *)
Lemma shallow_squat_penalty_witness :
  let s := mkState "down" 0 (Num 80) msg_depth 5 0 in
  let s2 := fst (squat_step s (Num 150)) in
  fltb (of_int 140) (Num 150) = true /\
  squat_stage (update_stage (set_last_angle s (Num 150)) (Num 150)) = "down" /\
  feedback_message s2 = msg_deeper /\
  accuracy_score s2 = 4%Z.
Proof.
  intros s s2.
  assert (Hgt : fltb (of_int 140) (Num 150) = true) by (compare_reals; reflexivity).
  assert (Hs1 : update_stage (set_last_angle s (Num 150)) (Num 150) =
                mkState "down" 0 (Num 150) msg_push 5 0).
  { unfold update_stage. compare_reals. reflexivity. }
  split; [exact Hgt|]. split; [now rewrite Hs1|].
  destruct (shallow_squat_penalty s (Num 150)) as (_ & _ & Hpen).
  destruct (Hpen Hgt) as [Hf Ha]; [now rewrite Hs1|].
  fold s2 in Hf, Ha. rewrite Hf, Ha, Hs1. split; reflexivity.
Defined.

(** A frame without any landmark. *)
Lemma missing_landmark_fallback_witness :
  In LEFT_HIP [LEFT_HIP; LEFT_KNEE; LEFT_ANKLE; RIGHT_HIP; RIGHT_KNEE; RIGHT_ANKLE] /\
  nth_error (@nil (Landmark xreal)) LEFT_HIP = None /\
  detect_squat init [] =
    (init, {| count := 0; stage := "up"; angle := Num 180;
              feedback := "Position yourself in camera view";
              accuracy := 0 |}).
Proof.
  assert (Hin : In LEFT_HIP
            [LEFT_HIP; LEFT_KNEE; LEFT_ANKLE; RIGHT_HIP; RIGHT_KNEE; RIGHT_ANKLE])
    by (left; reflexivity).
  assert (Hnone : nth_error (@nil (Landmark xreal)) LEFT_HIP = None)
    by reflexivity.
  split; [exact Hin|]. split; [exact Hnone|].
  exact (missing_landmark_fallback init [] LEFT_HIP Hin Hnone).
Defined.

(** The vertex (1, 0) halfway between (0, 0) and (2, 0), and the proper
    configuration (2, 0), (0, 0), (0, 3). *)
Lemma law_of_cosines_angle_witness :
  ((0, 0) <> (2, 0) /\ 0 < 1 / 2 < 1 /\
   calculate_angle (Num 0, Num 0)
     (Num (0 + 1 / 2 * (2 - 0)), Num (0 + 1 / 2 * (0 - 0)))
     (Num 2, Num 0) = Num 180) /\
  ((2, 0) <> (0, 0) /\ (0, 3) <> (0, 0) /\
   exists theta,
     calculate_angle (Num 2, Num 0) (Num 0, Num 0) (Num 0, Num 3) = Num theta /\
     0 <= theta <= 180).
Proof.
  assert (H1 : (0, 0) <> (2, 0)) by (intros E; injection E; lra).
  assert (H2 : 0 < 1 / 2 < 1) by lra.
  assert (H3 : (2, 0) <> (0, 0)) by (intros E; injection E; lra).
  assert (H4 : (0, 3) <> (0, 0)) by (intros E; injection E; lra).
  destruct law_of_cosines_angle as (_ & Hline & Hgen).
  split.
  - split; [exact H1|]. split; [exact H2|]. exact (Hline 0 0 2 0 (1 / 2) H1 H2).
  - split; [exact H3|]. split; [exact H4|].
    eexists. exact (Hgen 2 0 0 0 0 3 H3 H4).
Defined.

End Instances.

(** * Further properties of the analyzer *)

Section Tracking.

Context {F : Type} {np : NumPy F} {lib : MathLib F}.

Implicit Types (s t : State F) (avg : F) (landmarks : list (Landmark F)).

Lemma xy_some landmarks i :
  (i < List.length landmarks)%nat -> exists p, xy landmarks i = Some p.
Proof.
  intros Hi. unfold xy.
  destruct (nth_error landmarks i) as [l|] eqn:E; [eauto|].
  apply nth_error_None in E. lia.
Qed.

Lemma avg_knee_angle_of_long landmarks :
  (28 < List.length landmarks)%nat ->
  exists avg, avg_knee_angle_of landmarks = Some avg.
Proof.
  intros Hlen. unfold avg_knee_angle_of.
  destruct (xy_some landmarks LEFT_HIP) as [p1 ->]; [unfold LEFT_HIP; lia|].
  destruct (xy_some landmarks LEFT_KNEE) as [p2 ->]; [unfold LEFT_KNEE; lia|].
  destruct (xy_some landmarks LEFT_ANKLE) as [p3 ->]; [unfold LEFT_ANKLE; lia|].
  destruct (xy_some landmarks RIGHT_HIP) as [p4 ->]; [unfold RIGHT_HIP; lia|].
  destruct (xy_some landmarks RIGHT_KNEE) as [p5 ->]; [unfold RIGHT_KNEE; lia|].
  destruct (xy_some landmarks RIGHT_ANKLE) as [p6 ->]; [unfold RIGHT_ANKLE; lia|].
  eauto.
Qed.

(** X1: [detect_squat] takes its [except] branch exactly for a landmark list
    of fewer than 29 entries: a shorter list gives the fallback dictionary
    and leaves the analyzer alone, a longer one is measured and its average
    knee angle is stored in [last_angle]. *)
Theorem fallback_iff_short s landmarks :
  ((List.length landmarks <= 28)%nat ->
     detect_squat s landmarks =
       (s, {| count := squat_count s; stage := squat_stage s;
              angle := of_int 180; feedback := msg_reposition;
              accuracy := 0 |})) /\
  ((28 < List.length landmarks)%nat ->
     exists avg,
       avg_knee_angle_of landmarks = Some avg /\
       detect_squat s landmarks = squat_step s avg /\
       last_angle (fst (detect_squat s landmarks)) = avg).
Proof.
  split; intros Hlen.
  - unfold detect_squat.
    rewrite (avg_knee_angle_of_missing landmarks RIGHT_ANKLE);
      [reflexivity | simpl; tauto |].
    apply nth_error_None. unfold RIGHT_ANKLE. lia.
  - destruct (avg_knee_angle_of_long landmarks Hlen) as [avg E].
    exists avg. split; [exact E|].
    rewrite (detect_squat_measured s landmarks avg E). split; [reflexivity|].
    unfold squat_step. cbn [fst].
    now rewrite form_check_last_angle, update_stage_last_angle.
Qed.

(** *** Counting *)

Lemma update_stage_half_reps s avg :
  squat_count s <= squat_count (update_stage s avg) <= squat_count s + 1 /\
  half_reps (update_stage s avg) <= half_reps s + 1.
Proof.
  unfold half_reps, update_stage.
  repeat match goal with
         | |- context [if ?b then _ else _] =>
             destruct b eqn:?; cbn -[Z.mul Z.add]
         end; try lia; try discriminate.
Qed.

Lemma detect_squat_half_reps s landmarks :
  squat_count s <= squat_count (fst (detect_squat s landmarks))
    <= squat_count s + 1 /\
  half_reps (fst (detect_squat s landmarks)) <= half_reps s + 1.
Proof.
  unfold detect_squat.
  destruct (avg_knee_angle_of landmarks) as [avg|]; cbn [fst].
  - unfold squat_step. cbn [fst]. unfold half_reps.
    rewrite form_check_count, form_check_stage.
    apply (update_stage_half_reps (set_last_angle s avg) avg).
  - lia.
Qed.

Lemma run_half_reps frames : forall s,
  squat_count s <= squat_count (fst (run s frames)) /\
  half_reps (fst (run s frames)) <= half_reps s + Z.of_nat (List.length frames).
Proof.
  induction frames as [|landmarks rest IH]; intros s.
  - cbn. lia.
  - rewrite run_cons. cbn [fst List.length].
    destruct (detect_squat_half_reps s landmarks) as [H1 H2].
    destruct (IH (fst (detect_squat s landmarks))) as [H3 H4]. lia.
Qed.

(** X2: the count never goes down, one frame adds at most 1 to it, and a
    repetition takes at least two frames: after n frames from the initial
    state the count is at most n/2. *)
Theorem count_at_most_half_the_frames :
  (forall s landmarks,
     squat_count s <= squat_count (fst (detect_squat s landmarks))
       <= squat_count s + 1) /\
  (forall s (frames : list (list (Landmark F))),
     squat_count s <= squat_count (fst (run s frames))) /\
  (forall frames : list (list (Landmark F)),
     2 * squat_count (fst (run init frames)) <= Z.of_nat (List.length frames)).
Proof.
  split; [intros; apply detect_squat_half_reps|].
  split; [intros; apply run_half_reps|].
  intros frames. destruct (run_half_reps frames init) as [_ Hh].
  unfold half_reps in Hh.
  change (squat_count init) with 0 in Hh.
  change (squat_stage init =? "down")%string with false in Hh.
  destruct (squat_stage (fst (run init frames)) =? "down")%string;
    lia.
Qed.

(** *** Hysteresis *)

Lemma feed_cons s avg rest :
  feed s (avg :: rest) =
  (fst (feed (fst (squat_step s avg)) rest),
   snd (squat_step s avg) :: snd (feed (fst (squat_step s avg)) rest)).
Proof.
  cbn [feed]. destruct (squat_step s avg) as [s1 d]. cbn [fst snd].
  now destruct (feed s1 rest).
Qed.

Lemma feed_app angles1 : forall s angles2,
  fst (feed s (angles1 ++ angles2)) = fst (feed (fst (feed s angles1)) angles2).
Proof.
  induction angles1 as [|avg rest IH]; intros s angles2; [reflexivity|].
  cbn [app]. rewrite !feed_cons. cbn [fst]. apply IH.
Qed.

Lemma form_check_not_down s avg :
  (squat_stage s =? "down")%string = false -> form_check s avg = s.
Proof. intros E. unfold form_check. now rewrite E, andb_false_r. Qed.

Lemma not_below_90_from_up s avg :
  fltb avg (of_int 90) = false -> squat_stage s = "up" ->
  let s' := fst (squat_step s avg) in
  squat_count s' = squat_count s /\ squat_stage s' = "up" /\
  accuracy_score s' = accuracy_score s.
Proof.
  intros H90 Hup s'. subst s'.
  assert (Hu : squat_count (update_stage (set_last_angle s avg) avg)
                 = squat_count s /\
               squat_stage (update_stage (set_last_angle s avg) avg) = "up" /\
               accuracy_score (update_stage (set_last_angle s avg) avg)
                 = accuracy_score s).
  { unfold update_stage. cbn [squat_stage set_last_angle].
    rewrite H90, Hup. cbn [String.eqb Ascii.eqb Bool.eqb andb].
    repeat match goal with
           | |- context [if ?b then _ else _] => destruct b; cbn
           end; auto. }
  destruct Hu as (Hc & Hs & Ha).
  unfold squat_step. cbn [fst].
  rewrite form_check_not_down by (now rewrite Hs). auto.
Qed.

(** X3: while the average angle never falls below 90, an analyzer in stage
    "up" stays there and counts nothing, and its accuracy score does not
    move, however the angle swings. *)
Theorem no_count_without_depth (angles : list F) : forall s,
  Forall (fun avg => fltb avg (of_int 90) = false) angles ->
  squat_stage s = "up" ->
  let s' := fst (feed s angles) in
  squat_count s' = squat_count s /\ squat_stage s' = "up" /\
  accuracy_score s' = accuracy_score s.
Proof.
  induction angles as [|avg rest IH]; intros s Hall Hup; [cbn; auto|].
  inversion Hall as [|? ? H90 Hrest]; subst.
  rewrite feed_cons. cbn [fst].
  destruct (not_below_90_from_up s avg H90 Hup) as (Hc & Hs & Ha).
  destruct (IH _ Hrest Hs) as (Hc' & Hs' & Ha').
  cbn zeta in *. repeat split; congruence.
Qed.

(** *** The stage and the returned dictionary *)

Lemma update_stage_two_stages s avg :
  squat_stage s = "up" \/ squat_stage s = "down" ->
  squat_stage (update_stage s avg) = "up" \/
  squat_stage (update_stage s avg) = "down".
Proof.
  intros Hs. unfold update_stage.
  repeat match goal with
         | |- context [if ?b then _ else _] => destruct b eqn:?; cbn
         end; auto.
Qed.

Lemma detect_squat_reports s landmarks :
  let '(s', d) := detect_squat s landmarks in
  count d = squat_count s' /\ stage d = squat_stage s'.
Proof.
  unfold detect_squat.
  destruct (avg_knee_angle_of landmarks) as [avg|]; cbn; auto.
Qed.

Lemma detect_squat_two_stages s landmarks :
  squat_stage s = "up" \/ squat_stage s = "down" ->
  squat_stage (fst (detect_squat s landmarks)) = "up" \/
  squat_stage (fst (detect_squat s landmarks)) = "down".
Proof.
  intros Hs. unfold detect_squat.
  destruct (avg_knee_angle_of landmarks) as [avg|]; cbn [fst]; [|exact Hs].
  unfold squat_step. cbn [fst]. rewrite form_check_stage.
  now apply update_stage_two_stages.
Qed.

Lemma run_two_stages frames : forall s,
  squat_stage s = "up" \/ squat_stage s = "down" ->
  Forall (fun d => stage d = "up" \/ stage d = "down") (snd (run s frames)).
Proof.
  induction frames as [|landmarks rest IH]; intros s Hs; [constructor|].
  rewrite run_cons. cbn [snd].
  pose proof (detect_squat_two_stages s landmarks Hs) as Hs1.
  pose proof (detect_squat_reports s landmarks) as Hr.
  destruct (detect_squat s landmarks) as [s1 d]. cbn [fst snd] in *.
  constructor; [destruct Hr as [_ ->]; exact Hs1 | now apply IH].
Qed.

(** X4: every dictionary returned along a stream of frames from the initial
    state has the stage "up" or "down", and its count and stage are those of
    the analyzer after that call. *)
Theorem reported_stage_and_count :
  (forall frames : list (list (Landmark F)),
     Forall (fun d => stage d = "up" \/ stage d = "down")
            (snd (run init frames))) /\
  (forall s landmarks,
     count (snd (detect_squat s landmarks)) =
       squat_count (fst (detect_squat s landmarks)) /\
     stage (snd (detect_squat s landmarks)) =
       squat_stage (fst (detect_squat s landmarks))).
Proof.
  split.
  - intros frames. apply run_two_stages. now left.
  - intros s landmarks. pose proof (detect_squat_reports s landmarks) as Hr.
    now destruct (detect_squat s landmarks).
Qed.

(** *** Reset *)

Lemma detect_squat_tracking s t landmarks :
  tracking s = tracking t ->
  snd (detect_squat s landmarks) = snd (detect_squat t landmarks) /\
  tracking (fst (detect_squat s landmarks)) =
    tracking (fst (detect_squat t landmarks)).
Proof.
  destruct s as [st1 c1 la1 fb1 ac1 fs1], t as [st2 c2 la2 fb2 ac2 fs2].
  unfold tracking. cbn [squat_stage squat_count feedback_message accuracy_score].
  intros E. injection E as -> -> -> ->.
  unfold detect_squat.
  destruct (avg_knee_angle_of landmarks) as [avg|]; [|split; reflexivity].
  unfold squat_step, form_check, update_stage, tracking.
  cbn -[Z.min Z.max Z.add String.eqb].
  destruct (fltb (of_int 160) avg), (fltb avg (of_int 90)),
    (fleb (of_int 90) avg), (fleb avg (of_int 160)),
    (fltb avg (of_int 140)), (fltb (of_int 120) avg),
    (fltb (of_int 140) avg), (st2 =? "up")%string eqn:Eu,
    (st2 =? "down")%string eqn:Ed;
    cbn -[Z.min Z.max Z.add String.eqb];
    rewrite ?Eu, ?Ed; cbn -[Z.min Z.max Z.add]; split; reflexivity.
Qed.

Lemma run_tracking frames : forall s t,
  tracking s = tracking t ->
  snd (run s frames) = snd (run t frames) /\
  tracking (fst (run s frames)) = tracking (fst (run t frames)).
Proof.
  induction frames as [|landmarks rest IH]; intros s t E; [now split|].
  rewrite !run_cons. cbn [fst snd].
  destruct (detect_squat_tracking s t landmarks E) as [Hd Ht].
  destruct (IH _ _ Ht) as [Hds Hts]. split; [congruence | exact Hts].
Qed.

(** X10: after [reset_counter], whatever the analyzer had gone
    through, a stream of frames yields the dictionaries, and the stage,
    count, feedback and accuracy score, that it yields from the initial
    state. *)
Theorem reset_counter_starts_afresh s (frames : list (list (Landmark F))) :
  snd (run (reset_counter s) frames) = snd (run init frames) /\
  tracking (fst (run (reset_counter s) frames)) =
    tracking (fst (run init frames)).
Proof. apply run_tracking. reflexivity. Qed.

End Tracking.

(** * Properties that rest on the order of the thresholds *)

Section Thresholds.

Context {F : Type} {np : NumPy F} {lib : MathLib F}
        {laws : ComparisonLaws F}.

Implicit Types (s : State F) (avg x y : F).

Lemma lt_not_gt x y : fltb x y = true -> fltb y x = false.
Proof. intros H. now apply le_not_gt, lt_le. Qed.

Lemma lt_numbers x y :
  fltb x y = true -> fleb x x = true /\ fleb y y = true.
Proof. intros H. now apply le_numbers, lt_le. Qed.

Lemma nan_compares_false x y :
  fleb x x = false ->
  fltb x y = false /\ fltb y x = false /\
  fleb x y = false /\ fleb y x = false.
Proof.
  intros Hnan.
  assert (L1 : fleb x y = false).
  { destruct (fleb x y) eqn:E; [|reflexivity].
    apply le_numbers in E. destruct E; congruence. }
  assert (L2 : fleb y x = false).
  { destruct (fleb y x) eqn:E; [|reflexivity].
    apply le_numbers in E. destruct E; congruence. }
  repeat split; try assumption.
  - destruct (fltb x y) eqn:E; [|reflexivity].
    apply lt_le in E. congruence.
  - destruct (fltb y x) eqn:E; [|reflexivity].
    apply lt_le in E. congruence.
Qed.

Lemma lt_90_140 : fltb (of_int 90) (of_int 140) = true.
Proof.
  destruct thresholds_lt as (H1 & H2 & _). exact (lt_trans _ _ _ H1 H2).
Qed.

Lemma lt_90_160 : fltb (of_int 90) (of_int 160) = true.
Proof.
  destruct thresholds_lt as (_ & _ & H3). exact (lt_trans _ _ _ lt_90_140 H3).
Qed.

Lemma lt_120_160 : fltb (of_int 120) (of_int 160) = true.
Proof.
  destruct thresholds_lt as (_ & H2 & H3). exact (lt_trans _ _ _ H2 H3).
Qed.

Lemma below_90 avg :
  fltb avg (of_int 90) = true ->
  fltb (of_int 160) avg = false /\ fltb (of_int 140) avg = false.
Proof.
  intros H. split; apply lt_not_gt.
  - exact (lt_trans _ _ _ H lt_90_160).
  - exact (lt_trans _ _ _ H lt_90_140).
Qed.

Lemma above_140 avg :
  fltb (of_int 140) avg = true ->
  fltb avg (of_int 90) = false /\ fleb (of_int 90) avg = true /\
  fltb (of_int 120) avg = true /\ fltb avg (of_int 140) = false.
Proof.
  intros H. destruct thresholds_lt as (_ & H2 & _).
  pose proof (lt_trans _ _ _ lt_90_140 H) as H90.
  repeat split.
  - now apply lt_not_gt.
  - now apply lt_le.
  - exact (lt_trans _ _ _ H2 H).
  - now apply lt_not_gt.
Qed.

Lemma not_above_160 avg :
  fltb (of_int 140) avg = true -> fltb (of_int 160) avg = false ->
  fleb avg (of_int 160) = true.
Proof.
  intros H140 H160. destruct thresholds_lt as (_ & _ & H3).
  apply le_total; [| |exact H160].
  - now apply (lt_numbers _ _ H3).
  - now apply (lt_numbers _ _ H140).
Qed.

(** X5: an average angle below 90 takes an analyzer in stage "up" to stage
    "down" with the depth message and 5 more accuracy points, capped at 100,
    and leaves the count alone; in stage "down" it changes nothing but
    [last_angle]. *)
Theorem deep_squat_reaches_down s avg :
  fltb avg (of_int 90) = true ->
  let s' := fst (squat_step s avg) in
  last_angle s' = avg /\
  (squat_stage s = "up" ->
     tracking s' =
       ("down", squat_count s, msg_depth, Z.min 100 (accuracy_score s + 5))) /\
  (squat_stage s = "down" -> tracking s' = tracking s).
Proof.
  intros H90 s'. subst s'.
  destruct (below_90 avg H90) as [H160 H140].
  split.
  { unfold squat_step. cbn [fst].
    now rewrite form_check_last_angle, update_stage_last_angle. }
  destruct s as [st c la fb ac fs].
  unfold squat_step, form_check, update_stage, tracking.
  cbn -[Z.min Z.max Z.add String.eqb]. rewrite H160, H90.
  split; intros ->; cbn -[Z.min Z.max Z.add];
    rewrite ?H140; cbn -[Z.min Z.max Z.add]; reflexivity.
Qed.

Lemma squat_step_nan s avg :
  fleb avg avg = false ->
  squat_step s avg =
    (set_last_angle s avg,
     {| count := squat_count s; stage := squat_stage s;
        angle := round1 avg; feedback := feedback_message s;
        accuracy := Z.min 100 (Z.max 0 (accuracy_score s)) |}).
Proof.
  intros Hnan.
  destruct (nan_compares_false avg (of_int 160) Hnan) as (_ & H160 & _ & _).
  destruct (nan_compares_false avg (of_int 90) Hnan) as (H90 & _ & _ & Hle).
  destruct (nan_compares_false avg (of_int 140) Hnan) as (_ & H140 & _ & _).
  unfold squat_step, form_check, update_stage.
  cbn [squat_stage set_last_angle]. rewrite H160, H90, Hle, H140.
  reflexivity.
Qed.

(** X6: an average angle that is a nan (not even [<=] itself) passes every
    comparison: the analyzer keeps stage, count, feedback and accuracy
    score, stores the nan in [last_angle] and reports it as the angle. *)
Theorem nan_angle_freezes s avg :
  fleb avg avg = false ->
  squat_step s avg =
    (set_last_angle s avg,
     {| count := squat_count s; stage := squat_stage s;
        angle := round1 avg; feedback := feedback_message s;
        accuracy := Z.min 100 (Z.max 0 (accuracy_score s)) |}).
Proof.
  intros Hnan.
  destruct (nan_compares_false avg (of_int 160) Hnan) as (_ & H160 & _ & _).
  destruct (nan_compares_false avg (of_int 90) Hnan) as (H90 & _ & _ & Hle).
  destruct (nan_compares_false avg (of_int 140) Hnan) as (_ & H140 & _ & _).
  unfold squat_step, form_check, update_stage.
  cbn [squat_stage set_last_angle]. rewrite H160, H90, Hle, H140.
  reflexivity.
Qed.

(** X7: with the accuracy score within [0, 100], one update lowers it
    exactly when the analyzer is in stage "down", the average angle is above
    140 and at most 160, and the score is positive; any other update leaves
    it or raises it. *)
Theorem score_drops_only_when_shallow s avg :
  score_ok s ->
  (accuracy_score (fst (squat_step s avg)) < accuracy_score s <->
   squat_stage s = "down" /\ fltb (of_int 140) avg = true /\
   fleb avg (of_int 160) = true /\ 0 < accuracy_score s).
Proof.
  unfold score_ok. intros Hok.
  pose proof (below_90 avg) as I1.
  pose proof (not_above_160 avg) as I3.
  pose proof (le_not_gt avg (of_int 160)) as I4.
  unfold squat_step. cbn [fst].
  destruct (fltb (of_int 160) avg) eqn:H160.
  - (* standing branch: the stage is "up" afterwards *)
    specialize (I4).
    assert (Hge : accuracy_score s <=
                  accuracy_score (update_stage (set_last_angle s avg) avg) /\
                  squat_stage (update_stage (set_last_angle s avg) avg) = "up").
    { unfold update_stage. rewrite H160. cbn [squat_stage set_last_angle].
      destruct (squat_stage s =? "down")%string; cbn; split;
        try reflexivity; lia. }
    destruct Hge as [Hge Hs1].
    rewrite form_check_not_down by (now rewrite Hs1).
    split; [lia|]. intros (_ & _ & Hle & _).
    specialize (I4 Hle). discriminate.
  - destruct (fltb avg (of_int 90)) eqn:H90.
    + (* deep branch: the angle is not above 140 *)
      destruct (I1 eq_refl) as [_ H140].
      assert (Hge : accuracy_score s <=
                accuracy_score (update_stage (set_last_angle s avg) avg)).
      { unfold update_stage. rewrite H160, H90.
        cbn [squat_stage set_last_angle].
        destruct (squat_stage s =? "up")%string; cbn; lia. }
      unfold form_check at 1. rewrite H140. cbn [andb].
      split; [lia|]. intros (_ & Hb & _). congruence.
    + (* transition zone, or a nan: stage and score as before *)
      assert (Hsame :
        accuracy_score (update_stage (set_last_angle s avg) avg)
          = accuracy_score s /\
        squat_stage (update_stage (set_last_angle s avg) avg)
          = squat_stage s).
      { unfold update_stage. rewrite H160, H90.
        cbn [squat_stage set_last_angle].
        repeat match goal with
               | |- context [if ?b then _ else _] => destruct b; cbn
               end; auto. }
      destruct Hsame as [Ha Hs1].
      unfold form_check at 1. rewrite Hs1.
      destruct (fltb (of_int 140) avg) eqn:H140; cbn [andb].
      * destruct (squat_stage s =? "down")%string eqn:Ed.
        -- apply String.eqb_eq in Ed.
           cbn [accuracy_score set_accuracy_score set_feedback_message].
           rewrite Ha.
           split; [intros Hlt | intros (_ & _ & _ & Hpos); lia].
           repeat split; auto; try lia.
        -- rewrite Ha. split; [lia|]. intros (Hst & _).
           rewrite Hst in Ed. discriminate.
      * rewrite Ha. split; [lia|]. intros (_ & Hb & _). discriminate.
Qed.

(** X8: an average angle from 90 to 160 changes neither the stage nor the
    count, whatever the analyzer's state. *)
Theorem transition_zone_keeps_stage s avg :
  fleb (of_int 90) avg = true -> fleb avg (of_int 160) = true ->
  let s' := fst (squat_step s avg) in
  squat_stage s' = squat_stage s /\ squat_count s' = squat_count s.
Proof.
  intros Hlo Hhi s'. subst s'.
  pose proof (le_not_gt _ _ Hlo) as H90.
  pose proof (le_not_gt _ _ Hhi) as H160.
  unfold squat_step. cbn [fst].
  rewrite form_check_stage, form_check_count.
  unfold update_stage. rewrite H160, H90, Hlo, Hhi.
  cbn [andb squat_stage set_last_angle].
  repeat match goal with
         | |- context [if ?b then _ else _] => destruct b; cbn
         end; auto.
Qed.

Lemma deep_squat_reaches_down_stage s avg :
  squat_stage s = "up" -> fltb avg (of_int 90) = true ->
  squat_stage (fst (squat_step s avg)) = "down" /\
  squat_count (fst (squat_step s avg)) = squat_count s.
Proof.
  intros Hup H90. destruct (below_90 avg H90) as [H160 _].
  unfold squat_step. cbn [fst].
  rewrite form_check_stage, form_check_count.
  unfold update_stage. rewrite H160, H90.
  cbn [squat_stage set_last_angle]. rewrite Hup. cbn. auto.
Qed.

Lemma stays_down s avg :
  squat_stage s = "down" -> fleb avg (of_int 160) = true ->
  squat_stage (fst (squat_step s avg)) = "down" /\
  squat_count (fst (squat_step s avg)) = squat_count s.
Proof.
  intros Hst Hhi.
  pose proof (le_not_gt _ _ Hhi) as H160.
  unfold squat_step. cbn [fst].
  rewrite form_check_stage, form_check_count.
  unfold update_stage. rewrite H160.
  cbn [squat_stage set_last_angle]. rewrite Hst.
  repeat match goal with
         | |- context [if ?b then _ else _] => destruct b; cbn
         end; auto.
Qed.

Lemma stays_down_all (angles : list F) : forall s,
  squat_stage s = "down" ->
  Forall (fun avg => fleb avg (of_int 160) = true) angles ->
  squat_stage (fst (feed s angles)) = "down" /\
  squat_count (fst (feed s angles)) = squat_count s.
Proof.
  induction angles as [|avg rest IH]; intros s Hst Hall; [now split|].
  inversion Hall as [|? ? Hhi Hrest]; subst.
  rewrite feed_cons. cbn [fst].
  destruct (stays_down s avg Hst Hhi) as [Hs Hc].
  destruct (IH _ Hs Hrest) as [Hs' Hc']. split; congruence.
Qed.

Lemma rise_from_down s avg :
  squat_stage s = "down" -> fltb (of_int 160) avg = true ->
  squat_stage (fst (squat_step s avg)) = "up" /\
  squat_count (fst (squat_step s avg)) = squat_count s + 1.
Proof.
  intros Hst H160. unfold squat_step. cbn [fst].
  rewrite form_check_stage, form_check_count.
  unfold update_stage. rewrite H160.
  cbn [squat_stage set_last_angle]. rewrite Hst. cbn. auto.
Qed.

(** X9: from stage "up", one frame below 90, then any number of frames at
    160 or less, then one frame above 160 add exactly one repetition and end
    in stage "up". *)
Theorem one_excursion_one_rep s (deep rise : F) (low : list F) :
  squat_stage s = "up" ->
  fltb deep (of_int 90) = true ->
  Forall (fun avg => fleb avg (of_int 160) = true) low ->
  fltb (of_int 160) rise = true ->
  let s' := fst (feed s (deep :: low ++ [rise])) in
  squat_count s' = squat_count s + 1 /\ squat_stage s' = "up".
Proof.
  intros Hup Hdeep Hlow Hrise s'. subst s'.
  rewrite feed_cons. cbn [fst]. rewrite feed_app.
  destruct (deep_squat_reaches_down_stage s deep Hup Hdeep) as [Hs1 Hc1].
  destruct (stays_down_all low _ Hs1 Hlow) as [Hs2 Hc2].
  rewrite feed_cons. cbn [fst feed].
  destruct (rise_from_down _ rise Hs2 Hrise) as [Hs3 Hc3].
  split; congruence.
Qed.

End Thresholds.

(** * Properties of the frame pipeline *)

Section PipelineFacts.

Context {F : Type} {np : NumPy F} {lib : MathLib F} {pint : PyInt F}.

Implicit Types (s : State F) (v : Vision F) (ss : SessionState.t F)
  (vp : VideoProcessor.t) (frame : Incoming F).

(** What [process_frame] does is one of three things. *)
Lemma process_frame_cases s hw v mode :
  (fst (fst (process_frame s hw v mode)) = s /\
   squat_data (snd (process_frame s hw v mode)) = None) \/
  (exists landmark,
     mode = "Squat Counter" /\ pose_landmarks v = Some landmark /\
     pose_raises v = false /\ draw_raises v = false /\
     fst (fst (process_frame s hw v mode)) = fst (detect_squat s landmark) /\
     ((text_raises v = true /\ snd (process_frame s hw v mode) = no_pose_data) \/
      (text_raises v = false /\
       snd (process_frame s hw v mode) =
         {| landmarks_detected := true;
            squat_data := Some (snd (detect_squat s landmark)) |}))).
Proof.
  unfold process_frame. destruct hw as [height width].
  destruct (resized_shape height width) as [fr|]; [|left; split; reflexivity].
  destruct ((640 <? width) && resize_raises v); [left; split; reflexivity|].
  destruct (pose_raises v) eqn:Hp; [left; split; reflexivity|].
  destruct (pose_landmarks v) as [landmark|] eqn:Hl;
    [|left; split; reflexivity].
  destruct (draw_raises v) eqn:Hd; [left; split; reflexivity|].
  destruct (mode =? "Squat Counter")%string eqn:Hm;
    [|left; split; reflexivity].
  apply String.eqb_eq in Hm. right. exists landmark.
  destruct (detect_squat s landmark) as [s1 d].
  destruct (text_raises v); cbn; repeat split; auto.
Qed.

Lemma process_frame_idle s hw v mode :
  mode <> "Squat Counter" \/ pose_landmarks v = None \/
  pose_raises v = true \/ draw_raises v = true ->
  fst (fst (process_frame s hw v mode)) = s /\
  squat_data (snd (process_frame s hw v mode)) = None.
Proof.
  intros Hc.
  destruct (process_frame_cases s hw v mode)
    as [Hsame | (landmark & Hm & Hl & Hp & Hd & _)]; [exact Hsame|].
  exfalso. destruct Hc as [Hc | [Hc | [Hc | Hc]]]; congruence.
Qed.

(** X11: outside the "Squat Counter" mode, without a detected pose, or when
    the pose or drawing calls raise, [process_frame] leaves the analyzer as
    it was and returns no squat data. *)
Theorem process_frame_leaves_analyzer s hw v mode :
  mode <> "Squat Counter" \/ pose_landmarks v = None \/
  pose_raises v = true \/ draw_raises v = true ->
  fst (fst (process_frame s hw v mode)) = s /\
  squat_data (snd (process_frame s hw v mode)) = None.
Proof.
  intros Hc.
  destruct (process_frame_cases s hw v mode)
    as [Hsame | (landmark & Hm & Hl & Hp & Hd & _)]; [exact Hsame|].
  exfalso. destruct Hc as [Hc | [Hc | [Hc | Hc]]]; congruence.
Qed.

(** X12: squat data returned by [process_frame] is the dictionary of a
    [detect_squat] call on the detected landmarks in "Squat Counter" mode,
    comes with [landmarks_detected] set, and carries the count and stage the
    analyzer has after the call. *)
Theorem process_frame_squat_data s hw v mode d :
  squat_data (snd (process_frame s hw v mode)) = Some d ->
  landmarks_detected (snd (process_frame s hw v mode)) = true /\
  mode = "Squat Counter" /\
  (exists landmark,
     pose_landmarks v = Some landmark /\
     detect_squat s landmark = (fst (fst (process_frame s hw v mode)), d)) /\
  count d = squat_count (fst (fst (process_frame s hw v mode))) /\
  stage d = squat_stage (fst (fst (process_frame s hw v mode))).
Proof.
  intros Hd.
  destruct (process_frame_cases s hw v mode)
    as [[_ Hnone] | (landmark & Hm & Hl & _ & _ & Hs & Hr)]; [congruence|].
  destruct Hr as [[_ Hr] | [_ Hr]]; rewrite Hr in Hd; [discriminate|].
  cbn in Hd. injection Hd as <-. rewrite Hr, Hs. cbn [landmarks_detected].
  pose proof (detect_squat_reports s landmark) as Hrep.
  destruct (detect_squat s landmark) as [s1 d1] eqn:E. cbn [fst snd].
  repeat split; try tauto. exists landmark. split; [exact Hl | exact E].
Qed.

(** X13: when only the text overlay raises, in "Squat Counter" mode with a
    pose detected, the analyzer has taken the frame in (a repetition may
    have been counted) although the returned dictionary says that no
    landmarks were detected. *)
Theorem overlay_failure_still_counts s height width v landmark :
  width <= 640 ->
  pose_raises v = false -> pose_landmarks v = Some landmark ->
  draw_raises v = false -> text_raises v = true ->
  process_frame s (height, width) v "Squat Counter" =
    (fst (detect_squat s landmark), (height, width), no_pose_data).
Proof.
  intros Hw Hp Hl Hd Ht. unfold process_frame, resized_shape.
  replace (640 <? width) with false by (symmetry; apply Z.ltb_ge; lia).
  cbn [andb]. rewrite Hp, Hl, Hd. cbn.
  destruct (detect_squat s landmark). now rewrite Ht.
Qed.

(** *** [recv] *)

Lemma process_frame_half_reps s hw v mode :
  squat_count s <= squat_count (fst (fst (process_frame s hw v mode))) /\
  half_reps (fst (fst (process_frame s hw v mode))) <= half_reps s + 1.
Proof.
  destruct (process_frame_cases s hw v mode)
    as [[-> _] | (landmark & _ & _ & _ & _ & -> & _)].
  - lia.
  - destruct (detect_squat_half_reps s landmark). lia.
Qed.

Lemma publish_frame_count fc ss pd :
  SessionState.frame_count ss <= SessionState.frame_count (publish fc ss pd)
    <= SessionState.frame_count ss + 1 /\
  SessionState.pose_analyzer (publish fc ss pd) = SessionState.pose_analyzer ss /\
  SessionState.voice_enabled (publish fc ss pd) = SessionState.voice_enabled ss.
Proof.
  unfold publish.
  destruct (landmarks_detected pd); [|cbn; repeat split; lia].
  destruct (squat_data pd); cbn; repeat split; lia.
Qed.

Lemma even_step fc : (fc + 1) mod 2 = 0 -> fc mod 2 = 1.
Proof.
  intros H. pose proof (Z.mod_pos_bound fc 2 ltac:(lia)).
  pose proof (Z.div_mod fc 2 ltac:(lia)).
  pose proof (Z.div_mod (fc + 1) 2 ltac:(lia)). lia.
Qed.

(** What one [recv] keeps, for a processor that skips every other frame. *)
Lemma recv_paced vp ss frame :
  VideoProcessor.skip_frames vp = 2 ->
  2 * SessionState.frame_count ss <= VideoProcessor.frame_count vp ->
  2 * half_reps (SessionState.pose_analyzer ss)
    <= VideoProcessor.frame_count vp ->
  let vp' := fst (recv vp ss frame) in
  let ss' := snd (recv vp ss frame) in
  VideoProcessor.skip_frames vp' = 2 /\
  VideoProcessor.activity_mode vp' = VideoProcessor.activity_mode vp /\
  VideoProcessor.frame_count vp <= VideoProcessor.frame_count vp'
    <= VideoProcessor.frame_count vp + 1 /\
  2 * SessionState.frame_count ss' <= VideoProcessor.frame_count vp' /\
  2 * half_reps (SessionState.pose_analyzer ss')
    <= VideoProcessor.frame_count vp'.
Proof.
  intros Hskip HA HH. unfold recv.
  destruct (decode_raises frame); [cbn -[Z.mul Z.add]; repeat split; lia|].
  cbn [VideoProcessor.skip_frames VideoProcessor.frame_count
       VideoProcessor.activity_mode].
  rewrite Hskip. change (2 =? 0) with false. cbn [negb].
  destruct ((VideoProcessor.frame_count vp + 1) mod 2 =? 0) eqn:Ev;
    cbn [negb]; [|cbn -[Z.mul Z.add]; repeat split; lia].
  apply Z.eqb_eq in Ev. apply even_step in Ev.
  pose proof (Z.div_mod (VideoProcessor.frame_count vp) 2 ltac:(lia)) as Hdm.
  pose proof (process_frame_half_reps (SessionState.pose_analyzer ss)
                (shape frame) (vision frame) (VideoProcessor.activity_mode vp))
    as [_ Hh].
  destruct (process_frame (SessionState.pose_analyzer ss) (shape frame)
              (vision frame) (VideoProcessor.activity_mode vp))
    as [[s1 fr] pd].
  cbn [fst snd] in *.
  match goal with
  | |- context [publish ?fc ?st pd] =>
      destruct (publish_frame_count fc st pd) as (Hfc & Hpa & _)
  end.
  cbn [fst snd VideoProcessor.skip_frames VideoProcessor.frame_count
       VideoProcessor.activity_mode SessionState.frame_count
       SessionState.pose_analyzer] in *.
  rewrite Hpa. repeat split; lia.
Qed.

Lemma recv_all_cons vp ss frame rest :
  recv_all vp ss (frame :: rest) =
  recv_all (fst (recv vp ss frame)) (snd (recv vp ss frame)) rest.
Proof. cbn [recv_all]. now destruct (recv vp ss frame). Qed.

Lemma recv_all_paced (frames : list (Incoming F)) : forall vp ss,
  VideoProcessor.skip_frames vp = 2 ->
  2 * SessionState.frame_count ss <= VideoProcessor.frame_count vp ->
  2 * half_reps (SessionState.pose_analyzer ss)
    <= VideoProcessor.frame_count vp ->
  let vp' := fst (recv_all vp ss frames) in
  let ss' := snd (recv_all vp ss frames) in
  VideoProcessor.frame_count vp'
    <= VideoProcessor.frame_count vp + Z.of_nat (List.length frames) /\
  2 * SessionState.frame_count ss' <= VideoProcessor.frame_count vp' /\
  2 * half_reps (SessionState.pose_analyzer ss')
    <= VideoProcessor.frame_count vp'.
Proof.
  induction frames as [|frame rest IH]; intros vp ss Hskip HA HH.
  - cbn -[Z.mul Z.add]. lia.
  - rewrite recv_all_cons.
    destruct (recv_paced vp ss frame Hskip HA HH)
      as (Hskip' & _ & Hfc & HA' & HH').
    destruct (IH _ _ Hskip' HA' HH') as (H1 & H2 & H3).
    cbn zeta. cbn [List.length]. repeat split; try assumption. lia.
Qed.

(** X15: a processor as [__init__] builds it (frame count 0, every other
    frame skipped), in any activity mode and on a fresh session, has after n
    incoming frames analysed at most n/2 of them with a pose and counted at
    most n/4 repetitions. *)
Theorem recv_pace mode (frames : list (Incoming F)) :
  let vp := VideoProcessor.mk mode 0 2 in
  let ss' := snd (recv_all vp initialize_state frames) in
  2 * SessionState.frame_count ss' <= Z.of_nat (List.length frames) /\
  4 * squat_count (SessionState.pose_analyzer ss')
    <= Z.of_nat (List.length frames).
Proof.
  intros vp ss'.
  assert (Hskip : VideoProcessor.skip_frames vp = 2) by reflexivity.
  assert (HA : 2 * SessionState.frame_count (@initialize_state F np)
               <= VideoProcessor.frame_count vp) by (cbn; lia).
  assert (HH : 2 * half_reps (SessionState.pose_analyzer
                                (@initialize_state F np))
               <= VideoProcessor.frame_count vp) by (cbn; lia).
  pose proof (recv_all_paced frames vp initialize_state Hskip HA HH) as Hp.
  cbn zeta in Hp. destruct Hp as (H1 & H2 & H3).
  fold ss' in H2, H3. change (VideoProcessor.frame_count vp) with 0 in H1.
  split; [lia|]. unfold half_reps in H3.
  destruct (squat_stage (SessionState.pose_analyzer ss') =? "down")%string;
    lia.
Qed.

(** *** The activity mode *)

Lemma publish_no_squat_data fc ss (pd : PoseData F) :
  squat_data pd = None ->
  SessionState.pose_analyzer (publish fc ss pd) = SessionState.pose_analyzer ss /\
  SessionState.squat_data (publish fc ss pd) = SessionState.squat_data ss /\
  SessionState.last_feedback (publish fc ss pd) = SessionState.last_feedback ss /\
  SessionState.feedback_queue (publish fc ss pd) = SessionState.feedback_queue ss.
Proof.
  intros Hnone. unfold publish. rewrite Hnone.
  destruct (landmarks_detected pd); cbn; auto.
Qed.

Lemma recv_other_mode vp ss frame :
  VideoProcessor.activity_mode vp <> "Squat Counter" ->
  let vp' := fst (recv vp ss frame) in
  let ss' := snd (recv vp ss frame) in
  VideoProcessor.activity_mode vp' = VideoProcessor.activity_mode vp /\
  SessionState.pose_analyzer ss' = SessionState.pose_analyzer ss /\
  SessionState.squat_data ss' = SessionState.squat_data ss /\
  SessionState.last_feedback ss' = SessionState.last_feedback ss /\
  SessionState.feedback_queue ss' = SessionState.feedback_queue ss.
Proof.
  intros Hmode. unfold recv.
  destruct (decode_raises frame); [cbn; auto|].
  cbn [VideoProcessor.skip_frames VideoProcessor.frame_count
       VideoProcessor.activity_mode].
  destruct (VideoProcessor.skip_frames vp =? 0); [cbn; auto|].
  destruct (negb _); [cbn; auto|].
  destruct (process_frame_idle (SessionState.pose_analyzer ss)
              (shape frame) (vision frame) (VideoProcessor.activity_mode vp)
              (or_introl Hmode)) as [Hs Hd].
  destruct (process_frame (SessionState.pose_analyzer ss) (shape frame)
              (vision frame) (VideoProcessor.activity_mode vp))
    as [[s1 fr] pd].
  cbn [fst snd] in *. subst s1.
  match goal with
  | |- context [publish ?fc ?st pd] =>
      destruct (publish_no_squat_data fc st pd Hd) as (H1 & H2 & H3 & H4)
  end.
  cbn [VideoProcessor.activity_mode]. rewrite H1, H2, H3, H4. cbn. auto.
Qed.

Lemma recv_all_other_mode (frames : list (Incoming F)) : forall vp ss,
  VideoProcessor.activity_mode vp <> "Squat Counter" ->
  let ss' := snd (recv_all vp ss frames) in
  SessionState.pose_analyzer ss' = SessionState.pose_analyzer ss /\
  SessionState.squat_data ss' = SessionState.squat_data ss /\
  SessionState.last_feedback ss' = SessionState.last_feedback ss /\
  SessionState.feedback_queue ss' = SessionState.feedback_queue ss.
Proof.
  induction frames as [|frame rest IH]; intros vp ss Hmode; [cbn; auto|].
  rewrite recv_all_cons.
  destruct (recv_other_mode vp ss frame Hmode) as (Hm & H1 & H2 & H3 & H4).
  assert (Hmode' : VideoProcessor.activity_mode (fst (recv vp ss frame))
                   <> "Squat Counter") by (rewrite Hm; exact Hmode).
  destruct (IH _ (snd (recv vp ss frame)) Hmode') as (K1 & K2 & K3 & K4).
  cbn zeta. repeat split; congruence.
Qed.

(** X17: a video processor left as [__init__] builds it, with the activity
    mode "Free Pose", never touches the squat analyzer: over any stream of
    frames the analyzer, the session's squat data, the last spoken feedback
    and the speech queue stay as they were. *)
Theorem free_pose_never_counts ss (frames : list (Incoming F)) :
  let ss' := snd (recv_all VideoProcessor.init ss frames) in
  SessionState.pose_analyzer ss' = SessionState.pose_analyzer ss /\
  SessionState.squat_data ss' = SessionState.squat_data ss /\
  SessionState.last_feedback ss' = SessionState.last_feedback ss /\
  SessionState.feedback_queue ss' = SessionState.feedback_queue ss.
Proof. apply recv_all_other_mode. cbn. discriminate. Qed.

(** *** The speech queue *)

Lemma no_repeat_snoc (q : list string) (lf fb : string) :
  no_repeat q -> List.last q lf = lf -> fb <> lf -> no_repeat (q ++ [fb])%list.
Proof.
  induction q as [|a [|b r] IH]; intros Hq Hl Hne.
  - exact I.
  - cbn in Hl. subst a. cbn. split; [congruence | exact I].
  - destruct Hq as [Hab Hq]. split; [exact Hab|].
    apply IH; assumption.
Qed.

Lemma publish_queue fc ss (pd : PoseData F) :
  let ss' := publish fc ss pd in
  SessionState.voice_enabled ss' = SessionState.voice_enabled ss /\
  ((SessionState.feedback_queue ss' = SessionState.feedback_queue ss /\
    SessionState.last_feedback ss' = SessionState.last_feedback ss) \/
   (exists fb,
      SessionState.voice_enabled ss = true /\
      fb <> SessionState.last_feedback ss /\ fc mod 30 = 0 /\
      SessionState.feedback_queue ss' = (SessionState.feedback_queue ss ++ [fb])%list /\
      SessionState.last_feedback ss' = fb)).
Proof.
  unfold publish.
  destruct (landmarks_detected pd); [|cbn; auto].
  destruct (squat_data pd) as [d|]; [|cbn; auto].
  cbn [SessionState.voice_enabled SessionState.last_feedback
       SessionState.feedback_queue].
  destruct (SessionState.voice_enabled ss) eqn:Hv; cbn [andb]; [|auto].
  destruct (feedback d =? SessionState.last_feedback ss)%string eqn:Hf;
    cbn [andb negb]; [auto|].
  destruct (fc mod 30 =? 0) eqn:Hm; [|auto].
  split; [reflexivity|]. right. exists (feedback d).
  apply String.eqb_neq in Hf. apply Z.eqb_eq in Hm. auto.
Qed.

Lemma recv_queue vp ss frame :
  let vp' := fst (recv vp ss frame) in
  let ss' := snd (recv vp ss frame) in
  VideoProcessor.frame_count vp <= VideoProcessor.frame_count vp'
    <= VideoProcessor.frame_count vp + 1 /\
  SessionState.voice_enabled ss' = SessionState.voice_enabled ss /\
  ((SessionState.feedback_queue ss' = SessionState.feedback_queue ss /\
    SessionState.last_feedback ss' = SessionState.last_feedback ss) \/
   (exists fb,
      SessionState.voice_enabled ss = true /\
      fb <> SessionState.last_feedback ss /\
      VideoProcessor.frame_count vp' = VideoProcessor.frame_count vp + 1 /\
      VideoProcessor.frame_count vp' mod 30 = 0 /\
      SessionState.feedback_queue ss' = (SessionState.feedback_queue ss ++ [fb])%list /\
      SessionState.last_feedback ss' = fb)).
Proof.
  unfold recv.
  destruct (decode_raises frame); [cbn -[Z.add]; repeat split; auto; lia|].
  cbn [VideoProcessor.skip_frames VideoProcessor.frame_count
       VideoProcessor.activity_mode].
  destruct (VideoProcessor.skip_frames vp =? 0);
    [cbn -[Z.add]; repeat split; auto; lia|].
  destruct (negb _); [cbn -[Z.add]; repeat split; auto; lia|].
  destruct (process_frame (SessionState.pose_analyzer ss) (shape frame)
              (vision frame) (VideoProcessor.activity_mode vp))
    as [[s1 fr] pd].
  match goal with
  | |- context [publish ?fc ?st pd] =>
      destruct (publish_queue fc st pd) as (Hv & Hq)
  end.
  cbn [fst snd VideoProcessor.frame_count SessionState.voice_enabled
       SessionState.last_feedback SessionState.feedback_queue] in *.
  split; [lia|]. split; [exact Hv|].
  destruct Hq as [Hq | (fb & H1 & H2 & H3 & H4 & H5)]; [left; exact Hq|].
  right. exists fb. auto 10.
Qed.

Lemma recv_all_queue (frames : list (Incoming F)) : forall vp ss,
  no_repeat (SessionState.feedback_queue ss) ->
  List.last (SessionState.feedback_queue ss) (SessionState.last_feedback ss)
    = SessionState.last_feedback ss ->
  30 * Z.of_nat (List.length (SessionState.feedback_queue ss))
    <= VideoProcessor.frame_count vp ->
  let vp' := fst (recv_all vp ss frames) in
  let ss' := snd (recv_all vp ss frames) in
  no_repeat (SessionState.feedback_queue ss') /\
  List.last (SessionState.feedback_queue ss') (SessionState.last_feedback ss')
    = SessionState.last_feedback ss' /\
  30 * Z.of_nat (List.length (SessionState.feedback_queue ss'))
    <= VideoProcessor.frame_count vp' /\
  VideoProcessor.frame_count vp'
    <= VideoProcessor.frame_count vp + Z.of_nat (List.length frames) /\
  (SessionState.voice_enabled ss = false ->
   SessionState.feedback_queue ss' = SessionState.feedback_queue ss).
Proof.
  induction frames as [|frame rest IH]; intros vp ss Hnr Hl Hlen.
  - cbn -[Z.mul Z.add]. repeat split; auto; lia.
  - rewrite recv_all_cons.
    destruct (recv_queue vp ss frame) as (Hfc & Hv & Hq).
    assert (Hstep :
      no_repeat (SessionState.feedback_queue (snd (recv vp ss frame))) /\
      List.last (SessionState.feedback_queue (snd (recv vp ss frame)))
                (SessionState.last_feedback (snd (recv vp ss frame)))
        = SessionState.last_feedback (snd (recv vp ss frame)) /\
      30 * Z.of_nat (List.length
             (SessionState.feedback_queue (snd (recv vp ss frame))))
        <= VideoProcessor.frame_count (fst (recv vp ss frame)) /\
      (SessionState.voice_enabled ss = false ->
       SessionState.feedback_queue (snd (recv vp ss frame))
         = SessionState.feedback_queue ss)).
    { destruct Hq as [[-> ->] | (fb & H1 & H2 & H3 & H4 & -> & ->)].
      - repeat split; auto; lia.
      - split; [now apply (no_repeat_snoc _ (SessionState.last_feedback ss))|].
        split; [apply last_last|]. split; [|congruence].
        rewrite length_app, Nat2Z.inj_add. cbn [List.length].
        pose proof (Z.div_mod (VideoProcessor.frame_count (fst (recv vp ss frame)))
                      30 ltac:(lia)). lia. }
    destruct Hstep as (S1 & S2 & S3 & S4).
    destruct (IH _ _ S1 S2 S3) as (K1 & K2 & K3 & K4 & K5).
    cbn zeta. cbn [List.length]. repeat split; auto; try lia.
    intros Hoff. rewrite K5 by congruence. auto.
Qed.

(** X16: starting with an empty speech queue and a frame count of 0, after
    n incoming frames at most n/30 messages have been put on the queue, no
    message directly follows an equal one, the last one put is the one kept
    in [last_feedback], and nothing is put while voice feedback is off. *)
Theorem spoken_feedback_paced vp ss (frames : list (Incoming F)) :
  VideoProcessor.frame_count vp = 0 ->
  SessionState.feedback_queue ss = [] ->
  let ss' := snd (recv_all vp ss frames) in
  no_repeat (SessionState.feedback_queue ss') /\
  30 * Z.of_nat (List.length (SessionState.feedback_queue ss'))
    <= Z.of_nat (List.length frames) /\
  List.last (SessionState.feedback_queue ss') (SessionState.last_feedback ss')
    = SessionState.last_feedback ss' /\
  (SessionState.voice_enabled ss = false ->
   SessionState.feedback_queue ss' = []).
Proof.
  intros Hfc Hq ss'.
  assert (H1 : no_repeat (SessionState.feedback_queue ss))
    by (rewrite Hq; exact I).
  assert (H2 : List.last (SessionState.feedback_queue ss)
                 (SessionState.last_feedback ss)
               = SessionState.last_feedback ss) by (now rewrite Hq).
  assert (H3 : 30 * Z.of_nat (List.length (SessionState.feedback_queue ss))
               <= VideoProcessor.frame_count vp)
    by (rewrite Hq, Hfc; cbn; lia).
  pose proof (recv_all_queue frames vp ss H1 H2 H3) as Hp.
  cbn zeta in Hp. fold ss' in Hp. destruct Hp as (K1 & K2 & K3 & K4 & K5).
  repeat split; auto; try lia.
  intros Hoff. rewrite <- Hq. now apply K5.
Qed.

End PipelineFacts.

(** * The comparisons of the two interpretations *)

Section IdealLaws.

Import Ideal.
Local Open Scope R_scope.

Ltac decide_reals :=
  unfold Rltb, Rleb in *;
  repeat match goal with
         | H : context [Rlt_dec ?a ?b] |- _ => destruct (Rlt_dec a b)
         | H : context [Rle_dec ?a ?b] |- _ => destruct (Rle_dec a b)
         | |- context [Rlt_dec ?a ?b] => destruct (Rlt_dec a b)
         | |- context [Rle_dec ?a ?b] => destruct (Rle_dec a b)
         end;
  try discriminate; try reflexivity; try lra.

Lemma ideal_comparison_laws : ComparisonLaws xreal.
Proof.
  constructor.
  - intros [a|[]|] [b|[]|]; cbn; intros; decide_reals.
  - intros [a|[]|] [b|[]|]; cbn; intros; decide_reals.
  - intros [a|[]|] [b|[]|] [c|[]|]; cbn; intros; decide_reals.
  - intros [a|[]|] [b|[]|]; cbn; intros; decide_reals.
  - intros [a|[]|] [b|[]|]; cbn; intros; split; decide_reals.
  - cbn. repeat split; decide_reals.
Qed.

End IdealLaws.

Section Binary64Laws.

Import SpecFloat Binary64 Binary64Frames.







End Binary64Laws.

(** * The resized frame in binary64 *)

Section Binary64Resize.

Import Binary64 Binary64Frames.

Lemma wide_frames_checked :
  forallb
    (fun width =>
       match py_int (fmul (of_int width) (fdiv (of_int 640) (of_int width))) with
       | Some new_width => (new_width =? 639) || (new_width =? 640)
       | None => false
       end) wide_frames = true.
Proof. vm_compute. reflexivity. Qed.

Lemma in_wide_frames width : 640 < width <= 8192 -> In width wide_frames.
Proof.
  intros Hw. unfold wide_frames. apply in_map_iff.
  exists (Z.to_nat (width - 641)). split; [lia|].
  apply in_seq. lia.
Qed.

(** X14: a frame at most 640 wide keeps its shape; for every width from 641
    to 8192 the width asked of [cv2.resize] is 640 or, the product
    [width * scale] falling just short of 640, 639: a 1280-wide frame comes
    out 640 wide, a 1077-wide one 639 wide. *)
Theorem resized_width_binary64 :
  (forall height width,
     width <= 640 -> resized_shape height width = Some (height, width)) /\
  (forall height width new_height new_width,
     640 < width <= 8192 ->
     resized_shape height width = Some (new_height, new_width) ->
     new_width = 639 \/ new_width = 640) /\
  resized_shape 720 1280 = Some (360, 640) /\
  resized_shape 720 1077 = Some (427, 639).
Proof.
  split; [|split; [|split; vm_compute; reflexivity]].
  - intros height width Hw. unfold resized_shape.
    now replace (640 <? width) with false by (symmetry; apply Z.ltb_ge; lia).
  - intros height width new_height new_width Hw.
    pose proof (proj1 (forallb_forall _ _) wide_frames_checked width
                  (in_wide_frames width Hw)) as Hchk.
    cbv beta in Hchk. unfold resized_shape.
    replace (640 <? width) with true by (symmetry; apply Z.ltb_lt; lia).
    destruct (py_int (fmul (of_int width) (fdiv (of_int 640) (of_int width))))
      as [n|]; [|discriminate].
    destruct (py_int _) as [m|]; [|discriminate].
    intros E. injection E as _ <-.
    apply Bool.orb_true_iff in Hchk. destruct Hchk as [Hn | Hn];
      apply Z.eqb_eq in Hn; auto.
Qed.

End Binary64Resize.

(** * Coincident joints without rounding *)

Section IdealCoincident.

Import Ideal IdealFrames.

Lemma calculate_angle_coincident (p q : point xreal) :
  calculate_angle p p q = NaN /\ calculate_angle q p p = NaN.
Proof.
  assert (Z1 := xsub_self (fst p)). assert (Z2 := xsub_self (snd p)).
  split; unfold calculate_angle.
  - replace (fdiv _ _) with NaN; [reflexivity|].
    symmetry. cbn [fdiv ops]. apply xdiv_zero_zero.
    + apply np_dot_zero_l; assumption.
    + cbn [fmul ops]. apply xmul_zero_l. unfold np_linalg_norm.
      cbn [fsqrt ops]. apply xsqrt_zero. apply np_dot_zero_l; assumption.
  - replace (fdiv _ _) with NaN; [reflexivity|].
    symmetry. cbn [fdiv ops]. apply xdiv_zero_zero.
    + apply np_dot_zero_r; assumption.
    + cbn [fmul ops]. apply xmul_zero_r. unfold np_linalg_norm.
      cbn [fsqrt ops]. apply xsqrt_zero. apply np_dot_zero_l; assumption.
Qed.

Lemma average_with_nan (x : xreal) :
  fdiv (fadd NaN x) (of_int 2) = NaN /\ fdiv (fadd x NaN) (of_int 2) = NaN.
Proof. split; destruct x; reflexivity. Qed.

(** X18: without rounding as well, a frame with all landmarks in which a
    hip or an ankle coincides with its knee has a nan for average knee
    angle: [detect_squat] keeps stage, count, feedback and accuracy score,
    stores the nan in [last_angle] and reports the angle as nan. *)
Theorem coincident_joint_freezes (s : State xreal)
    (landmarks : list (Landmark xreal)) :
  (28 < List.length landmarks)%nat ->
  xy landmarks LEFT_HIP = xy landmarks LEFT_KNEE \/
  xy landmarks LEFT_ANKLE = xy landmarks LEFT_KNEE \/
  xy landmarks RIGHT_HIP = xy landmarks RIGHT_KNEE \/
  xy landmarks RIGHT_ANKLE = xy landmarks RIGHT_KNEE ->
  detect_squat s landmarks =
    (set_last_angle s NaN,
     {| count := squat_count s; stage := squat_stage s; angle := NaN;
        feedback := feedback_message s;
        accuracy := Z.min 100 (Z.max 0 (accuracy_score s)) |}).
Proof.
  intros Hlen Hco.
  assert (Havg : avg_knee_angle_of landmarks = Some NaN).
  { unfold avg_knee_angle_of in *.
    destruct (xy_some landmarks LEFT_HIP) as [p1 E1]; [unfold LEFT_HIP; lia|].
    destruct (xy_some landmarks LEFT_KNEE) as [p2 E2]; [unfold LEFT_KNEE; lia|].
    destruct (xy_some landmarks LEFT_ANKLE) as [p3 E3]; [unfold LEFT_ANKLE; lia|].
    destruct (xy_some landmarks RIGHT_HIP) as [p4 E4]; [unfold RIGHT_HIP; lia|].
    destruct (xy_some landmarks RIGHT_KNEE) as [p5 E5]; [unfold RIGHT_KNEE; lia|].
    destruct (xy_some landmarks RIGHT_ANKLE) as [p6 E6]; [unfold RIGHT_ANKLE; lia|].
    rewrite E1, E2, E3, E4, E5, E6 in *. f_equal.
    destruct Hco as [Hc | [Hc | [Hc | Hc]]]; injection Hc as ->.
    - rewrite (proj1 (calculate_angle_coincident p2 p3)).
      apply average_with_nan.
    - rewrite (proj2 (calculate_angle_coincident p2 p1)).
      apply average_with_nan.
    - rewrite (proj1 (calculate_angle_coincident p5 p6)).
      apply average_with_nan.
    - rewrite (proj2 (calculate_angle_coincident p5 p4)).
      apply average_with_nan. }
  rewrite (detect_squat_measured s landmarks NaN Havg).
  rewrite (squat_step_nan (laws := ideal_comparison_laws) s NaN eq_refl).
  reflexivity.
Qed.

End IdealCoincident.

(** * The further conditional statements at concrete inputs *)

Section MoreInstances.

Import Ideal IdealFrames IdealPose.
Local Open Scope R_scope.

Ltac cmp :=
  cbn [fltb fleb of_int ops xltb xleb];
  repeat first
    [ rewrite Rltb_true by lra | rewrite Rltb_false by lra
    | rewrite Rleb_true by lra | rewrite Rleb_false by lra ];
  try reflexivity.

(** No landmarks at all, and 29 landmarks at the origin. *)
Lemma fallback_iff_short_witness :
  let full := repeat (mkLandmark (Num 0) (Num 0)) 29 in
  ((List.length (@nil (Landmark xreal)) <= 28)%nat /\
   detect_squat init [] =
     (init, {| count := 0; stage := "up"; angle := Num 180;
               feedback := msg_reposition; accuracy := 0 |})) /\
  ((28 < List.length full)%nat /\
   exists avg, avg_knee_angle_of full = Some avg /\
               last_angle (fst (detect_squat init full)) = avg).
Proof.
  intros full.
  assert (H1 : (List.length (@nil (Landmark xreal)) <= 28)%nat) by (cbn; lia).
  assert (H2 : (28 < List.length full)%nat) by (cbn; lia).
  split.
  - split; [exact H1|]. exact (proj1 (fallback_iff_short init []) H1).
  - split; [exact H2|].
    destruct (proj2 (fallback_iff_short init full) H2) as (avg & E & _ & L).
    exists avg. split; assumption.
Defined.

(** Swinging between 150 and 170 degrees. *)
Lemma no_count_without_depth_witness :
  let angles := [Num 150; Num 170; Num 150; Num 170] in
  Forall (fun avg => fltb avg (of_int 90) = false) angles /\
  squat_count (fst (feed init angles)) = 0%Z /\
  squat_stage (fst (feed init angles)) = "up".
Proof.
  intros angles.
  assert (Hall : Forall (fun avg => fltb avg (of_int 90) = false) angles)
    by (repeat constructor; cmp).
  split; [exact Hall|].
  destruct (no_count_without_depth angles init Hall eq_refl) as (Hc & Hs & _).
  split; assumption.
Defined.

(** Going down to 80 degrees from the initial state. *)
Lemma deep_squat_reaches_down_witness :
  fltb (Num 80) (of_int 90) = true /\
  tracking (fst (squat_step init (Num 80))) = ("down", 0%Z, msg_depth, 5%Z).
Proof.
  assert (H90 : fltb (Num 80) (of_int 90) = true) by cmp.
  split; [exact H90|].
  destruct (deep_squat_reaches_down (laws := ideal_comparison_laws)
              init (Num 80) H90) as (_ & Hup & _).
  exact (Hup eq_refl).
Defined.

(** A nan for average angle in the initial state. *)
Lemma nan_angle_freezes_witness :
  fleb NaN NaN = false /\
  squat_step init NaN =
    (set_last_angle init NaN,
     {| count := 0; stage := "up"; angle := NaN;
        feedback := "Ready to start!"; accuracy := 0 |}).
Proof.
  split; [reflexivity|].
  exact (nan_angle_freezes (laws := ideal_comparison_laws) init NaN eq_refl).
Defined.

(** Loitering at 150 degrees in stage "down" with 5 accuracy points. *)
Lemma score_drops_only_when_shallow_witness :
  let s := mkState "down" 0 (Num 80) msg_depth 5 0 in
  score_ok s /\
  (accuracy_score (fst (squat_step s (Num 150))) < 5)%Z.
Proof.
  intros s.
  assert (Hok : score_ok s) by (unfold score_ok; cbn; lia).
  split; [exact Hok|].
  apply (score_drops_only_when_shallow (laws := ideal_comparison_laws)
           s (Num 150) Hok).
  repeat split; cmp.
Defined.

(** 100 degrees in the initial state. *)
Lemma transition_zone_keeps_stage_witness :
  fleb (of_int 90) (Num 100) = true /\ fleb (Num 100) (of_int 160) = true /\
  squat_stage (fst (squat_step init (Num 100))) = "up" /\
  squat_count (fst (squat_step init (Num 100))) = 0%Z.
Proof.
  assert (Hlo : fleb (of_int 90) (Num 100) = true) by cmp.
  assert (Hhi : fleb (Num 100) (of_int 160) = true) by cmp.
  split; [exact Hlo|]. split; [exact Hhi|].
  exact (transition_zone_keeps_stage (laws := ideal_comparison_laws)
           init (Num 100) Hlo Hhi).
Defined.

(** Down to 80, back through 100 and 150, up to 170. *)
Lemma one_excursion_one_rep_witness :
  let low := [Num 100; Num 150] in
  fltb (Num 80) (of_int 90) = true /\
  Forall (fun avg => fleb avg (of_int 160) = true) low /\
  fltb (of_int 160) (Num 170) = true /\
  squat_count (fst (feed init (Num 80 :: low ++ [Num 170]))) = 1%Z /\
  squat_stage (fst (feed init (Num 80 :: low ++ [Num 170]))) = "up".
Proof.
  intros low.
  assert (Hdeep : fltb (Num 80) (of_int 90) = true) by cmp.
  assert (Hlow : Forall (fun avg => fleb avg (of_int 160) = true) low)
    by (repeat constructor; cmp).
  assert (Hrise : fltb (of_int 160) (Num 170) = true) by cmp.
  split; [exact Hdeep|]. split; [exact Hlow|]. split; [exact Hrise|].
  exact (one_excursion_one_rep (laws := ideal_comparison_laws)
           init (Num 80) (Num 170) low eq_refl Hdeep Hlow Hrise).
Defined.

(** A 640 by 480 frame with a pose, in "Free Pose" mode. *)
Lemma process_frame_leaves_analyzer_witness :
  let v := mkVision false false (Some (@nil (Landmark xreal))) false false in
  "Free Pose" <> "Squat Counter" /\
  fst (fst (process_frame init (480, 640)%Z v "Free Pose")) = init /\
  squat_data (snd (process_frame init (480, 640)%Z v "Free Pose")) = None.
Proof.
  intros v.
  assert (Hm : "Free Pose" <> "Squat Counter") by discriminate.
  split; [exact Hm|].
  exact (process_frame_leaves_analyzer init (480, 640)%Z v "Free Pose"
           (or_introl Hm)).
Defined.

(** *** A standing pose of 33 landmarks *)

Lemma standing_leg (x : R) :
  calculate_angle (Num x, Num (1 / 2)) (Num x, Num (7 / 10))
                  (Num x, Num (9 / 10)) = Num 180.
Proof.
  replace (Num x, Num (7 / 10))
    with (Num (x + 1 / 2 * (x - x)), Num (1 / 2 + 1 / 2 * (9 / 10 - 1 / 2)))
    by (f_equal; f_equal; lra).
  apply straight_angle_is_180; [intros E; injection E; lra | lra].
Qed.

Lemma standing_avg : avg_knee_angle_of standing_pose = Some (Num 180).
Proof.
  unfold avg_knee_angle_of, xy, standing_pose, joint.
  cbn [nth_error repeat app LEFT_HIP LEFT_KNEE LEFT_ANKLE RIGHT_HIP
       RIGHT_KNEE RIGHT_ANKLE lm_x lm_y].
  rewrite !standing_leg. cbn [fadd fdiv of_int ops xadd xdiv].
  rewrite Reqb_false by lra. f_equal. f_equal. lra.
Qed.

Lemma detect_squat_standing (s : State xreal) :
  detect_squat s standing_pose = squat_step s (Num 180).
Proof. apply detect_squat_measured, standing_avg. Qed.

Lemma squat_step_standing_up (s : State xreal) :
  squat_stage s = "up" ->
  squat_step s (Num 180) =
    (set_last_angle s (Num 180),
     {| count := squat_count s; stage := "up"; angle := xround1 (Num 180);
        feedback := feedback_message s;
        accuracy := Z.min 100 (Z.max 0 (accuracy_score s)) |}).
Proof.
  destruct s as [st c la fb ac fs]. cbn [squat_stage]. intros ->.
  unfold squat_step, form_check, update_stage.
  cbn [squat_stage set_last_angle set_squat_stage String.eqb Ascii.eqb
       Bool.eqb andb].
  assert (H160 : fltb (of_int 160) (Num 180) = true) by cmp.
  rewrite H160. cbn. rewrite andb_false_r. reflexivity.
Qed.

Lemma recv_all_app {F : Type} {np : NumPy F} {lib : MathLib F}
    {pint : PyInt F} (l1 l2 : list (Incoming F)) : forall vp ss,
  recv_all vp ss (l1 ++ l2) =
  recv_all (fst (recv_all vp ss l1)) (snd (recv_all vp ss l1)) l2.
Proof.
  induction l1 as [|frame rest IH]; intros vp ss; [reflexivity|].
  cbn [app]. rewrite !recv_all_cons. apply IH.
Qed.

Lemma process_standing_frame (s : State xreal) (v : Vision xreal) :
  pose_raises v = false -> pose_landmarks v = Some standing_pose ->
  draw_raises v = false -> text_raises v = false ->
  process_frame s (480, 640)%Z v "Squat Counter" =
    (fst (squat_step s (Num 180)), (480, 640)%Z,
     {| landmarks_detected := true;
        squat_data := Some (snd (squat_step s (Num 180))) |}).
Proof.
  intros Hp Hl Hd Ht. unfold process_frame, resized_shape.
  change (640 <? 640)%Z with false. cbn [andb].
  rewrite Hp, Hl, Hd. cbn [String.eqb Ascii.eqb Bool.eqb].
  rewrite detect_squat_standing.
  destruct (squat_step s (Num 180)) as [s1 d]. now rewrite Ht.
Qed.

(** The standing pose on a 640 by 480 frame in "Squat Counter" mode. *)
Lemma process_frame_squat_data_witness :
  let v := vision standing_frame in
  let d := {| count := 0; stage := "up"; angle := xround1 (Num 180);
              feedback := "Ready to start!"; accuracy := 0 |} in
  List.length standing_pose = 33%nat /\
  squat_data (snd (process_frame init (480, 640)%Z v "Squat Counter")) = Some d /\
  landmarks_detected (snd (process_frame init (480, 640)%Z v "Squat Counter"))
    = true /\
  count d = squat_count (fst (fst (process_frame init (480, 640)%Z v
                                     "Squat Counter"))) /\
  detect_squat init standing_pose =
    (fst (fst (process_frame init (480, 640)%Z v "Squat Counter")), d).
Proof.
  intros v d.
  assert (Hd : squat_data (snd (process_frame init (480, 640)%Z v
                                  "Squat Counter")) = Some d).
  { unfold v. rewrite process_standing_frame by reflexivity.
    now rewrite (squat_step_standing_up init eq_refl). }
  split; [reflexivity|]. split; [exact Hd|].
  destruct (process_frame_squat_data init (480, 640)%Z v "Squat Counter" d Hd)
    as (Hl & _ & (landmark & Hpose & Hdet) & Hc & _).
  split; [exact Hl|]. split; [exact Hc|].
  injection Hpose as <-. exact Hdet.
Defined.

(** The standing pose seen by an analyzer in stage "down" when the text
    overlay raises: the repetition is counted all the same. *)
Lemma overlay_failure_still_counts_witness :
  let s := mkState "down" 0 (Num 80) msg_depth 5 0 in
  (640 <= 640)%Z /\
  List.length standing_pose = 33%nat /\
  process_frame s (480, 640)%Z standing_vision_no_text "Squat Counter" =
    (fst (detect_squat s standing_pose), (480, 640)%Z, no_pose_data) /\
  squat_count (fst (detect_squat s standing_pose)) = 1%Z /\
  squat_stage (fst (detect_squat s standing_pose)) = "up".
Proof.
  intros s.
  assert (Hw : (640 <= 640)%Z) by lia.
  split; [exact Hw|]. split; [reflexivity|].
  split.
  - exact (overlay_failure_still_counts s 480 640 standing_vision_no_text
             standing_pose Hw eq_refl eq_refl eq_refl eq_refl).
  - rewrite detect_squat_standing.
    assert (H160 : fltb (of_int 160) (Num 180) = true) by cmp.
    destruct (rise_from_down s (Num 180) eq_refl H160) as [Hs Hc].
    split; [rewrite Hc; reflexivity | exact Hs].
Defined.

Lemma idle_frames (s : State xreal) :
  recv_all (VideoProcessor.mk "Squat Counter" 0 2)
    (SessionState.mk s true "" [] 0 false None) (repeat empty_frame 29) =
  (VideoProcessor.mk "Squat Counter" 29 2,
   SessionState.mk s true "" [] 0 false None).
Proof. reflexivity. Qed.

Lemma speak_at_30 :
  snd (recv (VideoProcessor.mk "Squat Counter" 29 2)
         (SessionState.mk init true "" [] 0 false None) standing_frame) =
  SessionState.mk (set_last_angle init (Num 180)) true "Ready to start!"
    ["Ready to start!"] 1 true
    (Some {| count := 0; stage := "up"; angle := xround1 (Num 180);
             feedback := "Ready to start!"; accuracy := 0 |}).
Proof.
  unfold recv, standing_frame.
  cbn [decode_raises shape vision VideoProcessor.skip_frames
       VideoProcessor.frame_count VideoProcessor.activity_mode
       SessionState.pose_analyzer].
  change (2 =? 0)%Z with false.
  change ((29 + 1) mod 2 =? 0)%Z with true. cbn [negb].
  rewrite process_standing_frame by reflexivity.
  rewrite (squat_step_standing_up init eq_refl).
  cbn [fst snd]. reflexivity.
Qed.

(** Twenty-nine frames showing nobody, then the standing pose on the
    thirtieth, with voice feedback on: "Ready to start!" is put on the
    queue. *)
Lemma spoken_feedback_paced_witness :
  let vp := VideoProcessor.mk "Squat Counter" 0 2 in
  let ss := SessionState.mk (@init xreal _) true "" [] 0 false None in
  let frames := (repeat empty_frame 29 ++ [standing_frame])%list in
  VideoProcessor.frame_count vp = 0%Z /\
  SessionState.feedback_queue ss = [] /\
  SessionState.feedback_queue (snd (recv_all vp ss frames))
    = ["Ready to start!"] /\
  no_repeat (SessionState.feedback_queue (snd (recv_all vp ss frames))) /\
  (30 * Z.of_nat (List.length
     (SessionState.feedback_queue (snd (recv_all vp ss frames))))
   <= Z.of_nat (List.length frames))%Z /\
  List.last (SessionState.feedback_queue (snd (recv_all vp ss frames)))
            (SessionState.last_feedback (snd (recv_all vp ss frames)))
    = SessionState.last_feedback (snd (recv_all vp ss frames)).
Proof.
  intros vp ss frames.
  split; [reflexivity|]. split; [reflexivity|].
  split.
  - unfold frames, vp, ss. rewrite recv_all_app, idle_frames.
    cbn [fst snd]. rewrite recv_all_cons. cbn [recv_all].
    now rewrite speak_at_30.
  - destruct (spoken_feedback_paced vp ss frames eq_refl eq_refl)
      as (H1 & H2 & H3 & _).
    split; [exact H1|]. split; [exact H2 | exact H3].
Defined.

(** 29 landmarks at the origin: every joint coincides with the knee. *)
Lemma coincident_joint_freezes_witness :
  let landmarks := repeat (mkLandmark (Num 0) (Num 0)) 29 in
  (28 < List.length landmarks)%nat /\
  xy landmarks LEFT_HIP = xy landmarks LEFT_KNEE /\
  last_angle (fst (detect_squat init landmarks)) = NaN /\
  angle (snd (detect_squat init landmarks)) = NaN /\
  squat_count (fst (detect_squat init landmarks)) = 0%Z.
Proof.
  intros landmarks.
  assert (Hlen : (28 < List.length landmarks)%nat) by (cbn; lia).
  assert (Hco : xy landmarks LEFT_HIP = xy landmarks LEFT_KNEE)
    by reflexivity.
  split; [exact Hlen|]. split; [exact Hco|].
  rewrite (coincident_joint_freezes init landmarks Hlen (or_introl Hco)).
  repeat split.
Defined.

End MoreInstances.

Section Binary64Instances.

Import Binary64 Binary64Frames.

(** A frame of 1280 by 720. *)
Lemma resized_width_binary64_witness :
  (480 <= 640 /\ resized_shape 360 480 = Some (360, 480)) /\
  (640 < 1280 <= 8192 /\ resized_shape 720 1280 = Some (360, 640) /\
   (640 = 639 \/ 640 = 640)).
Proof.
  destruct resized_width_binary64 as (Hsmall & Hwide & H1280 & _).
  assert (H1 : 480 <= 640) by lia.
  assert (H2 : 640 < 1280 <= 8192) by lia.
  split.
  - split; [exact H1|]. exact (Hsmall 360 480 H1).
  - split; [exact H2|]. split; [exact H1280|].
    exact (Hwide 720 1280 360 640 H2 H1280).
Defined.

End Binary64Instances.

(** * What the session shows *)

Section Display.

Context {F : Type} {np : NumPy F} {lib : MathLib F} {pint : PyInt F}.

Implicit Types (ss : SessionState.t F) (vp : VideoProcessor.t).

Lemma recv_display vp ss (frame : Incoming F) :
  match SessionState.squat_data ss with
  | Some d => count d <= squat_count (SessionState.pose_analyzer ss)
  | None => True
  end ->
  match SessionState.squat_data (snd (recv vp ss frame)) with
  | Some d =>
      count d <= squat_count (SessionState.pose_analyzer (snd (recv vp ss frame)))
  | None => True
  end.
Proof.
  intros Hinv. unfold recv.
  destruct (decode_raises frame); [exact Hinv|].
  destruct (_ =? 0); [exact Hinv|].
  destruct (negb _); [exact Hinv|].
  pose proof (process_frame_cases (SessionState.pose_analyzer ss)
                (shape frame) (vision frame)
                (VideoProcessor.activity_mode
                   (VideoProcessor.mk (VideoProcessor.activity_mode vp)
                      (VideoProcessor.frame_count vp + 1)
                      (VideoProcessor.skip_frames vp)))) as Hcases.
  pose proof (process_frame_half_reps (SessionState.pose_analyzer ss)
                (shape frame) (vision frame)
                (VideoProcessor.activity_mode
                   (VideoProcessor.mk (VideoProcessor.activity_mode vp)
                      (VideoProcessor.frame_count vp + 1)
                      (VideoProcessor.skip_frames vp)))) as [Hmono _].
  destruct (process_frame _ _ _ _) as [[s1 fr] pd].
  cbn [fst snd] in *. unfold publish.
  cbn [SessionState.pose_analyzer SessionState.squat_data
       SessionState.voice_enabled SessionState.last_feedback
       SessionState.feedback_queue SessionState.frame_count
       SessionState.pose_detected].
  destruct Hcases as [[_ Hnone] | (landmark & _ & _ & _ & _ & Hs1 & Hpd)].
  - rewrite Hnone. destruct (landmarks_detected pd); cbn;
      destruct (SessionState.squat_data ss); auto; lia.
  - pose proof (detect_squat_reports (SessionState.pose_analyzer ss) landmark)
      as Hrep.
    destruct (detect_squat (SessionState.pose_analyzer ss) landmark)
      as [s2 d2]. cbn [fst snd] in *. subst s1.
    destruct Hpd as [[_ ->] | [_ ->]]; cbn.
    + destruct (SessionState.squat_data ss); auto; lia.
    + lia.
Qed.

(** X19: over any stream of frames through [recv] on a fresh session, the
    count in the session's squat data, once there is one, never exceeds the
    count the analyzer holds. *)
Theorem shown_count_not_ahead vp (frames : list (Incoming F)) :
  match SessionState.squat_data (snd (recv_all vp initialize_state frames)) with
  | Some d =>
      count d <= squat_count
                   (SessionState.pose_analyzer
                      (snd (recv_all vp initialize_state frames)))
  | None => True
  end.
Proof.
  assert (Hgen : forall (fs : list (Incoming F)) vp0 ss0,
    match SessionState.squat_data ss0 with
    | Some d => count d <= squat_count (SessionState.pose_analyzer ss0)
    | None => True
    end ->
    match SessionState.squat_data (snd (recv_all vp0 ss0 fs)) with
    | Some d =>
        count d <= squat_count
                     (SessionState.pose_analyzer (snd (recv_all vp0 ss0 fs)))
    | None => True
    end).
  { induction fs as [|frame rest IH]; intros vp0 ss0 Hinv; [exact Hinv|].
    rewrite recv_all_cons. apply IH. now apply recv_display. }
  apply Hgen. exact I.
Qed.

End Display.

(** * The angle without rounding, on all inputs *)

Section IdealRange.

Import Ideal.
Local Open Scope R_scope.

Lemma xmul_comm (x y : xreal) : xmul x y = xmul y x.
Proof.
  destruct x as [a|s|], y as [b|t|]; cbn; try reflexivity.
  - f_equal. ring.
  - now rewrite xorb_comm.
Qed.

Lemma np_dot_comm (u v : point xreal) : np_dot u v = np_dot v u.
Proof.
  unfold np_dot. cbn [fadd fmul ops].
  now rewrite (xmul_comm (fst u)), (xmul_comm (snd u)).
Qed.

(** X20: without rounding, [calculate_angle] does not depend on the order of
    the two outer points, and on every input, degenerate or not, it returns
    either nan or a number of degrees between 0 and 180. *)
Theorem angle_symmetric_and_bounded (a b c : point xreal) :
  calculate_angle a b c = calculate_angle c b a /\
  (calculate_angle a b c = NaN \/
   exists theta, calculate_angle a b c = Num theta /\ 0 <= theta <= 180).
Proof.
  split.
  - unfold calculate_angle.
    rewrite (np_dot_comm (vsub a b) (vsub c b)).
    cbn [fmul ops].
    now rewrite (xmul_comm (np_linalg_norm (vsub a b))).
  - unfold calculate_angle, np_degrees. cbn [np_arccos lib fmul rad2deg ops].
    destruct (np_clip _ _ _) as [z| |]; cbn; auto.
    destruct (Rleb (-1) z && Rleb z 1); cbn; auto.
    right. eexists. split; [reflexivity|].
    destruct (acos_bound z) as [Hlo Hhi].
    assert (Hk : 0 < 180 / PI)
      by (apply Rdiv_lt_0_compat; [lra | apply PI_RGT_0]).
    split.
    + apply Rmult_le_pos; lra.
    + apply Rle_trans with (PI * (180 / PI));
        [apply Rmult_le_compat_r; lra | rewrite degrees_of_PI; lra].
Qed.

End IdealRange.

(** * The clamped cosine in binary64 *)

Section Clamp.

Context {F : Type} {np : NumPy F} {laws : ComparisonLaws F}.


End Clamp.

Section Binary64Cosine.

Import PrimFloat Binary64 Binary64Angles.







(** The clamp at work: for (-4, -4), (-1, -1), (2, 2) the quotient comes out
    below -1 and [np.clip] brings it back to -1. *)
Example clamp_needed_on_lattice :
  let ba := vsub (lattice_point (-4) (-4)) (lattice_point (-1) (-1)) in
  let bc := vsub (lattice_point 2 2) (lattice_point (-1) (-1)) in
  fltb (fdiv (np_dot ba bc) (fmul (np_linalg_norm ba) (np_linalg_norm bc)))
       (of_int (-1)) = true /\
  cosine_angle (lattice_point (-4) (-4)) (lattice_point (-1) (-1))
               (lattice_point 2 2) = (-1)%float.
Proof. split; vm_compute; reflexivity. Qed.

End Binary64Cosine.
